(** * ISS tracker: the route handlers of [iss_tracker.py], embedded and checked

    The program is a Flask application over one global, [data]: the NASA
    ephemeris document parsed by [xmltodict], or the empty list once
    [/delete-data] was called.  Each route handler is a Python function of
    the global, of the request's query string and of its URL argument; it
    returns a Python value or raises.  The embedding keeps that shape:

    - a handler is a function into [result value], [Raise e] standing for an
      uncaught Python exception of class [e];
    - the global is passed explicitly, and so is the query string;
    - Python floats are IEEE binary64 numbers, [SpecFloat] at precision 53;
    - what Python or the C library supplies ([int], [float], [**] on
      floats, [atan2], the clock, the geocoder) is a parameter of the
      section that uses it, so that every statement holds for whatever
      these functions compute.  Executable fragments of [int], [float] and
      [**] are given at the end of the model and serve the examples. *)

From Stdlib Require Import ZArith String Ascii List Lia Bool.
From Stdlib Require Import Floats.SpecFloat.
From stdpp Require Import base option list strings gmap.

Local Open Scope string_scope.
Local Open Scope Z_scope.

(** ** Outcomes of a Python call *)

Inductive exn : Set :=
| ValueError | TypeError | KeyError | IndexError | NameError | OverflowError.

Inductive result (A : Type) : Type :=
| Ok (a : A)
| Raise (e : exn).
Arguments Ok {A} a.
Arguments Raise {A} e.

#[global] Instance result_ret : MRet result := fun _ a => Ok a.
#[global] Instance result_bind : MBind result := fun _ _ f m =>
  match m with
  | Ok a => f a
  | Raise e => Raise e
  end.
#[global] Instance result_fmap : FMap result := fun _ _ f m =>
  match m with
  | Ok a => Ok (f a)
  | Raise e => Raise e
  end.

(** [o ?! e]: the value of [o], or exception [e] when there is none. *)
Definition or_raise {A} (o : option A) (e : exn) : result A :=
  match o with
  | Some a => Ok a
  | None => Raise e
  end.
Infix "?!" := or_raise (at level 45, no associativity).

(** ** Floats *)

Abbreviation float := spec_float.
Definition prec : Z := 53.
Definition emax : Z := 1024.
Definition fadd : float -> float -> float := SFadd prec emax.
Definition fsub : float -> float -> float := SFsub prec emax.
Definition fmul : float -> float -> float := SFmul prec emax.
Definition fdiv : float -> float -> float := SFdiv prec emax.
Definition fsqrt : float -> float := SFsqrt prec emax.
Definition fltb : float -> float -> bool := SFltb.
(** The float of a Python [int] that fits 53 bits, as the interpreter
    converts it before a mixed operation. *)
Definition of_int (z : Z) : float := binary_normalize prec emax z 0 false.

(** [math.sqrt]: the C [sqrt], and [ValueError] ("math domain error")
    where the argument is negative.  A NaN, a zero of either sign and
    [+inf] pass through. *)
Definition negative (x : float) : bool :=
  match x with
  | S754_finite true _ _ | S754_infinity true => true
  | _ => false
  end.

Definition math_sqrt (x : float) : result float :=
  if negative x then Raise ValueError else Ok (fsqrt x).

(** ** The data set *)

(** One [stateVector] element of the parsed document.  The six coordinates
    are the ['#text'] entries, still strings. *)
Record StateVector : Set := {
  EPOCH : string;
  X : string; Y : string; Z_ : string;
  X_DOT : string; Y_DOT : string; Z_DOT : string
}.

(** The parts of the document that the handlers read: [header] under
    [data['ndm']['oem']], the rest under [...['body']['segment']].  The feed
    carries many state vectors, so [xmltodict] delivers them as a list. *)
Record oem : Set := {
  header : list (string * string);
  metadata : list (string * string);
  COMMENT : list string;
  stateVector : list StateVector
}.

(** The global [data]: the document (a dict whose only key is ['ndm']), or
    [[]] after [delete_data]. *)
Inductive dataset : Set :=
| EmptyList
| Document (d : oem).

(** ** Python values that the handlers pass around and return *)

Inductive locval : Set :=
| LFloat (f : float)
| LQuantity (value : float) (units : string)
| LText (s : string)
| LAddress (a : list (string * string)).

Inductive value : Type :=
| VNone
| VList (l : list string)
| VStr (s : string)
| VPairs (d : list (string * string))
| VStateVector (sv : StateVector)
| VSpeed (value : float) (units : string)
| VLocation (d : gmap string locval).

(** A query parameter as the handler holds it: the [str] of the query
    string, or the [int] given as default. *)
Inductive param : Set :=
| PInt (z : Z)
| PStr (s : string).

(** [request.args]: the two keys the program reads. *)
Record request : Set := {
  arg_offset : option string;
  arg_limit : option string
}.

Definition no_args : request := {| arg_offset := None; arg_limit := None |}.

(** [request.args.get(key, default)] *)
Definition args_get (a : option string) (default : Z) : param :=
  match a with
  | Some s => PStr s
  | None => PInt default
  end.

(** Truth value of a parameter in [if offset:]. *)
Definition truthy (p : param) : bool :=
  match p with
  | PInt z => negb (z =? 0)
  | PStr s => negb (String.eqb s "")
  end.

(** [count == limit], [count] an [int]: an [int] never equals a [str]. *)
Definition int_eq (n : Z) (p : param) : bool :=
  match p with
  | PInt z => n =? z
  | PStr _ => false
  end.

(** [offset_count >= offset]: ordering an [int] against a [str] raises. *)
Definition int_ge (n : Z) (p : param) : result bool :=
  match p with
  | PInt z => Ok (z <=? n)
  | PStr _ => Raise TypeError
  end.

(** [x in c], [c] a list of strings or a string (substring test). *)
Fixpoint is_substring (x s : string) : bool :=
  String.prefix x s ||
  match s with
  | EmptyString => false
  | String _ s' => is_substring x s'
  end.

Definition py_in (x : string) (c : value) : result bool :=
  match c with
  | VList l => Ok (bool_decide (x ∈ l))
  | VStr s => Ok (is_substring x s)
  | _ => Raise TypeError
  end.

(** [l.index(x)]: the first position of [x]. *)
Fixpoint index (x : string) (l : list string) : option nat :=
  match l with
  | [] => None
  | y :: l' => if String.eqb x y then Some O else S <$> index x l'
  end.

Definition offset_error : string := "Error: Offset parameter must be greater than 0.".
Definition limit_error : string := "Error: Limit parameter must be greater than 0.".
Definition invalid_epoch : string := "Please enter a valid Epoch time stamp.".
Definition newline : string := String (ascii_of_nat 10) EmptyString.

(** ** [/epochs] and [/epochs/<epoch>] *)

Section Epochs.
(** Python's [int] on a [str]; [None] is [ValueError]. *)
Variable py_int : string -> option Z.

(** [int(p)] under [try ... except ValueError], entered when [p] is true. *)
Definition parse_param (p : param) : option param :=
  if truthy p then
    match p with
    | PInt z => Some (PInt z)
    | PStr s => PInt <$> py_int s
    end
  else Some p.

(** The [for] loop of lines 64-72, on what is left of the list. *)
Fixpoint epochs_loop (limit offset : param) (svs : list StateVector)
    (epochsList : list string) (count offset_count : Z) : result (list string) :=
  match svs with
  | [] => Ok epochsList
  | d :: svs' =>
      if int_eq count limit then Ok epochsList
      else
        ge ← int_ge offset_count offset;
        if ge : bool
        then epochs_loop limit offset svs' (epochsList ++ [EPOCH d]) (count + 1) (offset_count + 1)
        else epochs_loop limit offset svs' epochsList count (offset_count + 1)
  end.

Definition epochs (req : request) (data : dataset) : result value :=
  match data with
  | EmptyList => Ok (VList [])
  | Document d =>
      let offset := args_get (arg_offset req) 0 in
      let limit := args_get (arg_limit req) (Z.of_nat (length (stateVector d))) in
      match parse_param offset with
      | None => Ok (VStr offset_error)
      | Some offset =>
          match parse_param limit with
          | None => Ok (VStr limit_error)
          | Some limit => VList <$> epochs_loop limit offset (stateVector d) [] 0 0
          end
      end
  end.
End Epochs.

(** Lines 92-101.  [allEpochs.index] and the subscript cannot fail once the
    membership test passed; the model keeps the two lookups as they are. *)
Definition state_vector (data : dataset) (epoch : string) : result value :=
  match data with
  | EmptyList => Ok (VList [])
  | Document d =>
      let allEpochs := map EPOCH (stateVector d) in
      if bool_decide (epoch ∈ allEpochs) then
        specific ← index epoch allEpochs ?! ValueError;
        stateVector ← stateVector d !! specific ?! IndexError;
        Ok (VStateVector stateVector)
      else Ok (VStr (invalid_epoch ++ newline))
  end.

(** ** [/epochs/<epoch>/speed] *)

(** [epochData[key]['#text']]: a [str] or a list subscripted by a [str]
    raises [TypeError]. *)
Definition text_of (epochData : value) (key : StateVector -> string) : result string :=
  match epochData with
  | VStateVector sv => Ok (key sv)
  | _ => Raise TypeError
  end.

Section Speed.
Variable py_int : string -> option Z.
(** Python's [float] on a [str]; [None] is [ValueError]. *)
Variable py_float : string -> option float.
(** [x ** 2] on a float: the C [pow]; [None] is [OverflowError]. *)
Variable float_pow2 : float -> option float.

(** [float(epochData[key]['#text'])] *)
Definition float_of (epochData : value) (key : StateVector -> string) : result float :=
  t ← text_of epochData key;
  py_float t ?! ValueError.

(** Lines 123-129, on the value that [state_vector] returned. *)
Definition speed_of (epochData : value) : result value :=
  x_dot ← float_of epochData X_DOT;
  y_dot ← float_of epochData Y_DOT;
  z_dot ← float_of epochData Z_DOT;
  x2 ← float_pow2 x_dot ?! OverflowError;
  y2 ← float_pow2 y_dot ?! OverflowError;
  z2 ← float_pow2 z_dot ?! OverflowError;
  v ← math_sqrt (fadd (fadd x2 y2) z2);
  Ok (VSpeed v "km/s").

(** [epochs()] is called inside the request of the speed route, so it reads
    that request's query string. *)
Definition speed (req : request) (data : dataset) (epoch : string) : result value :=
  match data with
  | EmptyList => Ok (VList [])
  | Document _ =>
      allEpochs ← epochs py_int req data;
      found ← py_in epoch allEpochs;
      if found : bool then
        epochData ← state_vector data epoch;
        speed_of epochData
      else Ok (VStr invalid_epoch)
  end.
End Speed.

(** ** [/comment], [/header], [/metadata], [/delete-data], [/post-data] *)

Definition comment_list (data : dataset) : result value :=
  match data with
  | EmptyList => Ok (VList [])
  | Document d => Ok (VList (COMMENT d))
  end.

Definition header_dict (data : dataset) : result value :=
  match data with
  | EmptyList => Ok (VList [])
  | Document d => Ok (VPairs (header d))
  end.

Definition metadata_ (data : dataset) : result value :=
  match data with
  | EmptyList => Ok (VList [])
  | Document d => Ok (VPairs (metadata d))
  end.

(** [delete_data] rebinds the global and returns its statement: the new
    global comes first. *)
Definition delete_data (data : dataset) : dataset * string :=
  (EmptyList, "NASA ISS trajectory data set has been deleted." ++ newline).

(** [post_data], [fetched] being the document the feed answers with. *)
Definition post_data (fetched : oem) (data : dataset) : dataset * string :=
  (Document fetched, "NASA ISS Trajectory data set has been reloaded." ++ newline).

(** ** [/epochs/<epoch>/location] *)

(** The names bound at module level when a handler runs. *)
Definition module_globals : list string :=
  ["Flask"; "request"; "Nominatim"; "json"; "xmltodict"; "requests"; "math";
   "time"; "app"; "geocoder"; "MEAN_EARTH_RADIUS"; "response"; "data";
   "entire_data_set"; "epochs"; "state_vector"; "speed"; "help";
   "delete_data"; "post_data"; "comment_list"; "header_dict"; "metadata";
   "location"; "now"].

(** Reading a global name: [NameError] when the module does not bind it. *)
Definition load_global (name : string) : result unit :=
  if bool_decide (name ∈ module_globals) then Ok () else Raise NameError.

(** [f[key]], [f] a function object: functions have no [__getitem__]. *)
Definition subscript_function (f key : string) : result string :=
  _ ← load_global f;
  Raise TypeError.

Definition MEAN_EARTH_RADIUS : Z := 6371.

(** [s[i:j]] for [0 <= i <= j]; Python clamps a slice to the string. *)
Definition slice (i j : nat) (s : string) : string :=
  String.substring i (j - i) s.

(** [s[:-k]] *)
Definition drop_last (k : nat) (s : string) : string :=
  String.substring 0 (String.length s - k) s.

(** Lines 284-287: the two branches that store the longitude.  There is no
    third branch. *)
Definition store_longitude (locationData : gmap string locval) (longitude : float)
    : gmap string locval :=
  if fltb (of_int 180) longitude then
    <["LONGITUDE" := LFloat (fsub longitude (of_int 360))]> locationData
  else if fltb longitude (of_int (-180)) then
    <["LONGITUDE" := LFloat (fadd longitude (of_int 360))]> locationData
  else locationData.

Section Location.
Variable py_int : string -> option Z.
Variable py_float : string -> option float.
Variable float_pow2 : float -> option float.
(** [math.atan2] and [math.degrees] on floats: they return for all floats. *)
Variable atan2 : float -> float -> float.
Variable degrees : float -> float.
(** [reverse((lat, lon), zoom = 10, language = 'en')] of the geocoder: the
    ['address'] of the answer, or [None]. *)
Variable reverse : locval -> locval -> option (list (string * string)).

(** Lines 283: [degrees(atan2(y,x)) - ((hrs-12)+(mins/60))*(360/24) + 32].
    [hrs] and [mins] come from two characters each, so their floats are
    exact. *)
Definition raw_longitude (x y : float) (hrs mins : Z) : float :=
  fadd
    (fsub (degrees (atan2 y x))
          (fmul (fadd (of_int (hrs - 12)) (fdiv (of_int mins) (of_int 60)))
                (fdiv (of_int 360) (of_int 24))))
    (of_int 32).

(** Lines 275-298, given the [epoch] that line 274 would bind. *)
Definition location_body (epoch : string) (epochData : value) : result value :=
  let locationData : gmap string locval := ∅ in
  hrs ← py_int (slice 9 11 epoch) ?! ValueError;
  mins ← py_int (slice 12 14 epoch) ?! ValueError;
  x ← float_of py_float epochData X;
  y ← float_of py_float epochData Y;
  z ← float_of py_float epochData Z_;
  x2 ← float_pow2 x ?! OverflowError;
  y2 ← float_pow2 y ?! OverflowError;
  r ← math_sqrt (fadd x2 y2);
  let locationData := <["LATITUDE" := LFloat (degrees (atan2 z r))]> locationData in
  let longitude := raw_longitude x y hrs mins in
  let locationData := store_longitude locationData longitude in
  x2 ← float_pow2 x ?! OverflowError;
  y2 ← float_pow2 y ?! OverflowError;
  z2 ← float_pow2 z ?! OverflowError;
  norm ← math_sqrt (fadd (fadd x2 y2) z2);
  let altitude := fsub norm (of_int MEAN_EARTH_RADIUS) in
  let locationData := <["ALTITUDE" := LQuantity altitude "km"]> locationData in
  _ ← load_global "geocode";
  latitude ← locationData !! "LATITUDE" ?! KeyError;
  longitude ← locationData !! "LONGITUDE" ?! KeyError;
  match reverse latitude longitude with
  | None =>
      Ok (VLocation (<["GEOPOSITION" := LText
        "Error, the geolocation data is not available because the ISS is over the ocean."]>
        locationData))
  | Some address =>
      _ ← load_global "geoposition";
      Ok (VLocation (<["GEOPOSITION" := LAddress address]> locationData))
  end.

(** The handler as a Python function of [epoch] (line 254).  Line 274 reads
    [state_vector['EPOCH']], a subscript of the handler [state_vector]
    itself.  When the test of line 272 fails the function ends without a
    [return]. *)
Definition location (req : request) (data : dataset) (epoch : string) : result value :=
  match data with
  | EmptyList => Ok (VList [])
  | Document _ =>
      allEpochs ← epochs py_int req data;
      found ← py_in epoch allEpochs;
      if found : bool then
        epochData ← state_vector data epoch;
        epoch ← subscript_function "state_vector" "EPOCH";
        location_body epoch epochData
      else Ok VNone
  end.
End Location.

(** ** [/now] *)

(** [data['ndm']['oem']['body']['segment']['data']['stateVector']]: a list
    subscripted by a [str] raises [TypeError]. *)
Definition stateVectors_of (data : dataset) : result (list StateVector) :=
  match data with
  | EmptyList => Raise TypeError
  | Document d => Ok (stateVector d)
  end.

(** [data[i]], [i] an [int]: the keys of the document are strings, its only
    top-level key is ['ndm']. *)
Definition subscript_int (data : dataset) (i : Z) : result value :=
  match data with
  | EmptyList => Raise IndexError
  | Document _ => Raise KeyError
  end.

(** [v['EPOCH']]; of the values that reach it only a state vector has the
    key, a [str] subscripted by a [str] raises [TypeError]. *)
Definition epoch_of (v : value) : result string :=
  match v with
  | VStateVector sv => Ok (EPOCH sv)
  | _ => Raise TypeError
  end.

Section Now.
Variable py_int : string -> option Z.
Variable py_float : string -> option float.
Variable float_pow2 : float -> option float.
Variable atan2 : float -> float -> float.
Variable degrees : float -> float.
Variable reverse : locval -> locval -> option (list (string * string)).
(** [time.time()]: the reading of the clock at its [k]-th call in the
    handler. *)
Variable time_time : nat -> float.
(** [time.mktime(time.strptime(s, '%Y-%jT%H:%M:%S'))]; [None] is the
    [ValueError] of [strptime]. *)
Variable epoch_seconds : string -> option float.

(** The [for] loop of lines 323-333.  Line 333 stores the epoch string, not
    the record, in [minStateVector]. *)
Fixpoint now_loop (svs : list StateVector) (calls : nat)
    (minDifference : float) (minStateVector : value) : result (float * value) :=
  match svs with
  | [] => Ok (minDifference, minStateVector)
  | d :: svs' =>
      let epoch := EPOCH d in
      let timeNow := time_time calls in
      timeEpoch ← epoch_seconds (drop_last 1 epoch) ?! ValueError;
      let difference := fsub timeNow timeEpoch in
      if fltb (SFabs difference) (SFabs minDifference)
      then now_loop svs' (S calls) difference (VStr epoch)
      else now_loop svs' (S calls) minDifference minStateVector
  end.

(** Lines 312-338, the two calls of lines 337-338 read with their closing
    parenthesis.  The subscript of line 312 comes before the test of line
    315; [infoNow] is filled and the function ends without a [return]. *)
Definition now (req : request) (data : dataset) : result value :=
  stateVectors ← stateVectors_of data;
  match data with
  | EmptyList => Ok (VList [])
  | Document _ =>
      let timeNow := time_time 0 in
      first ← subscript_int data 0;
      epoch ← epoch_of first;
      timeEpoch ← epoch_seconds (drop_last 5 epoch) ?! ValueError;
      let minDifference := fsub timeNow timeEpoch in
      minStateVector ← subscript_int data 0;
      scan ← now_loop stateVectors 1 minDifference minStateVector;
      closest_epoch ← epoch_of scan.2;
      e ← epoch_of scan.2;
      _ ← location py_int py_float float_pow2 atan2 degrees reverse req data e;
      e ← epoch_of scan.2;
      _ ← speed py_int py_float float_pow2 req data e;
      Ok VNone
  end.
End Now.

(** ** Executable fragments of the builtins

    They decide the examples.  [int_literal] is [int] on ASCII text:
    surrounding white space, a sign, decimal digits, single underscores
    between digits.  [float_literal] is [float] on signed decimal integers
    below [2^53], which it converts exactly; [ieee_pow2] is the correctly
    rounded square, overflow reported.  Text outside a fragment is answered
    with [None]. *)

Definition is_space (c : ascii) : bool :=
  let n := nat_of_ascii c in
  ((9 <=? n) && (n <=? 13) || (28 <=? n) && (n <=? 32))%nat.

Definition digit_of (c : ascii) : option Z :=
  let n := Z.of_nat (nat_of_ascii c) in
  if (48 <=? n) && (n <=? 57) then Some (n - 48) else None.

Fixpoint lstrip (s : string) : string :=
  match s with
  | String c s' => if is_space c then lstrip s' else s
  | EmptyString => s
  end.

Definition strip (s : string) : string :=
  String.rev (lstrip (String.rev (lstrip s))).

(** Digits with single underscores between them; [after_digit] tells whether
    the previous character was a digit. *)
Fixpoint digits (acc : Z) (after_digit : bool) (s : string) : option Z :=
  match s with
  | EmptyString => if after_digit then Some acc else None
  | String c s' =>
      match digit_of c with
      | Some d => digits (10 * acc + d) true s'
      | None =>
          if Ascii.eqb c "_" && after_digit then digits acc false s' else None
      end
  end.

Definition signed (body : string -> option Z) (s : string) : option (bool * Z) :=
  match s with
  | String "-" s' => pair true <$> body s'
  | String "+" s' => pair false <$> body s'
  | _ => pair false <$> body s
  end.

Definition int_literal (s : string) : option Z :=
  (fun '(neg, n) => if neg : bool then - n else n) <$> signed (digits 0 false) (strip s).

Fixpoint plain_digits (acc : Z) (seen : bool) (s : string) : option Z :=
  match s with
  | EmptyString => if seen then Some acc else None
  | String c s' =>
      match digit_of c with
      | Some d => plain_digits (10 * acc + d) true s'
      | None => None
      end
  end.

Definition float_literal (s : string) : option float :=
  match signed (plain_digits 0 false) s with
  | Some (neg, n) =>
      if n <? 2 ^ 53 then Some (if neg : bool then SFopp (of_int n) else of_int n)
      else None
  | None => None
  end.

Definition ieee_pow2 (x : float) : option float :=
  match x, fmul x x with
  | S754_finite _ _ _, S754_infinity _ => None
  | _, r => Some r
  end.

(** ** A small data set for the examples *)

Definition sample_vector (epoch vx vy vz : string) : StateVector :=
  {| EPOCH := epoch;
     X := "-4000"; Y := "5000"; Z_ := "2000";
     X_DOT := vx; Y_DOT := vy; Z_DOT := vz |}.

Definition epoch1 : string := "2023-058T12:00:00.000Z".
Definition epoch2 : string := "2023-058T12:04:00.000Z".
Definition epoch3 : string := "2023-058T12:08:00.000Z".

Definition sample_oem : oem :=
  {| header := [("CREATION_DATE", "2023-058T20:01:26.893Z"); ("ORIGINATOR", "JSC")];
     metadata := [("OBJECT_NAME", "ISS"); ("REF_FRAME", "EME2000")];
     COMMENT := ["Units are in kg and m^2"];
     stateVector := [sample_vector epoch1 "3" "4" "0";
                     sample_vector epoch2 "-5" "1" "6";
                     sample_vector epoch3 "2" "-7" "1"] |}.

Definition sample : dataset := Document sample_oem.

(** Query strings of the examples. *)
Definition window_request : request :=
  {| arg_offset := Some "1"; arg_limit := Some "2" |}.
Definition negative_offset_request : request :=
  {| arg_offset := Some "-2"; arg_limit := Some "2" |}.
Definition negative_limit_request : request :=
  {| arg_offset := Some "1"; arg_limit := Some "-1" |}.
Definition refused_request : request :=
  {| arg_offset := Some "1.5"; arg_limit := Some "ten" |}.

(** The integer a query parameter stands for: its default when absent,
    what [int] reads in it when supplied. *)
Definition arg_value (py_int : string -> option Z) (a : option string) (default : Z)
    : option Z :=
  match a with
  | None => Some default
  | Some s => py_int s
  end.

(** A supplied parameter that [int] refuses. *)
Definition refused (py_int : string -> option Z) (a : option string) : Prop :=
  exists s, a = Some s /\ s <> "" /\ py_int s = None.

(** The record with its first two velocity components exchanged. *)
Definition swap_xy (sv : StateVector) : StateVector :=
  {| EPOCH := EPOCH sv;
     X := X sv; Y := Y sv; Z_ := Z_ sv;
     X_DOT := Y_DOT sv; Y_DOT := X_DOT sv; Z_DOT := Z_DOT sv |}.

(** The first record carrying [e], with its position. *)
Definition first_with_epoch (svs : list StateVector) (e : string) (sv : StateVector) : Prop :=
  exists i, svs !! i = Some sv /\ EPOCH sv = e
    /\ forall j sv', (j < i)%nat -> svs !! j = Some sv' -> EPOCH sv' <> e.

(** The store with the first two velocity components of every record
    exchanged. *)
Definition swap_store (d : oem) : oem :=
  {| header := header d; metadata := metadata d; COMMENT := COMMENT d;
     stateVector := map swap_xy (stateVector d) |}.

(** Whether a handler returned a location dictionary. *)
Definition returns_location (r : result value) : bool :=
  match r with
  | Ok (VLocation _) => true
  | _ => false
  end.

(** ** Notions for the properties of the loops and of the longitude *)

(** The term that line 283 subtracts, [((hrs-12)+(mins/60))*(360/24)]. *)
Definition time_correction (hrs mins : Z) : float :=
  fmul (fadd (of_int (hrs - 12)) (fdiv (of_int mins) (of_int 60)))
       (fdiv (of_int 360) (of_int 24)).

Definition fleb : float -> float -> bool := SFleb.

(** The test of line 331, [abs(a) < abs(b)]. *)
Definition abs_lt (a b : float) : bool := fltb (SFabs a) (SFabs b).

(** ** More inputs for the examples *)

(** A record whose [X_DOT] is not a number. *)
Definition broken_oem : oem :=
  {| header := []; metadata := []; COMMENT := [];
     stateVector := [sample_vector epoch1 "n/a" "4" "0"] |}.

(** Epochs without fractional seconds, 50 s before, 5 s after and 200 s
    before 2023-058T12:10:00. *)
Definition near1 : string := "2023-058T12:09:10Z".
Definition near2 : string := "2023-058T12:10:05Z".
Definition near3 : string := "2023-058T12:06:40Z".
Definition near_vectors : list StateVector :=
  [sample_vector near1 "3" "4" "0"; sample_vector near2 "3" "4" "0";
   sample_vector near3 "3" "4" "0"].

(** A fragment of [time.mktime(time.strptime(s, '%Y-%jT%H:%M:%S'))] for a
    process whose local time is UTC: text of the fixed width
    [YYYY-DDDThh:mm:ss], from 1970 on, days 1 to 365; anything else,
    trailing text included, is answered with [None]. *)
Definition leap_days_before (y : Z) : Z :=
  (y - 1) / 4 - (y - 1) / 100 + (y - 1) / 400.

Definition utc_epoch_seconds (s : string) : option float :=
  if (String.length s =? 17)%nat
     && String.eqb (slice 4 5 s) "-" && String.eqb (slice 8 9 s) "T"
     && String.eqb (slice 11 12 s) ":" && String.eqb (slice 14 15 s) ":"
  then
    y ← plain_digits 0 false (slice 0 4 s);
    j ← plain_digits 0 false (slice 5 8 s);
    h ← plain_digits 0 false (slice 9 11 s);
    mi ← plain_digits 0 false (slice 12 14 s);
    sec ← plain_digits 0 false (slice 15 17 s);
    if (1970 <=? y) && (1 <=? j) && (j <=? 365) && (h <=? 23) && (mi <=? 59)
       && (sec <=? 59)
    then
      let days := 365 * (y - 1970) + (leap_days_before y - leap_days_before 1970)
                  + (j - 1) in
      Some (of_int (days * 86400 + h * 3600 + mi * 60 + sec))
    else None
  else None.

(** A clock that stands at 2023-058T12:10:00 UTC during the call. *)
Definition clock_at_noon_ten : nat -> float := fun _ => of_int 1677499800.

(** [math.degrees] as the interpreter computes it, [x * (180.0 / pi)]. *)
Definition pi : float := S754_finite false 7074237752028440 (-51).
Definition ieee_degrees (x : float) : float := fmul x (fdiv (of_int 180) pi).

(** The examples of [location] stop before line 281 and never look at the
    value of [atan2]; this instance only fills its place.  The geocoder of
    the examples has no answer. *)
Definition atan2_unreached : float -> float -> float := fun _ _ => S754_nan.
Definition no_answer : locval -> locval -> option (list (string * string)) :=
  fun _ _ => None.

(** Whether a run stopped on one of the exceptions that lines 275-292 can
    raise ahead of the geocoder. *)
Definition stops_before_geocoding (r : result value) : bool :=
  match r with
  | Raise (ValueError | TypeError | OverflowError | NameError) => true
  | _ => false
  end.

(** The correction of hour [h], minute [m] lies in [[-180, 180)]. *)
Definition correction_in_range (h m : nat) : bool :=
  fleb (of_int (-180)) (time_correction (Z.of_nat h) (Z.of_nat m))
  && fltb (time_correction (Z.of_nat h) (Z.of_nat m)) (of_int 180).

(** More query strings for the examples. *)
Definition first_page_request : request :=
  {| arg_offset := Some "0"; arg_limit := Some "1" |}.
Definition whole_request : request :=
  {| arg_offset := Some "0"; arg_limit := Some "3" |}.
Definition empty_limit_request : request :=
  {| arg_offset := Some "1"; arg_limit := Some "" |}.
Definition empty_offset_request : request :=
  {| arg_offset := Some ""; arg_limit := None |}.
Definition two_first_request : request :=
  {| arg_offset := None; arg_limit := Some "2" |}.

(** * Properties *)

(** ** The monad and the list helpers *)

Lemma bind_Ok {A B} (a : A) (f : A -> result B) : Ok a ≫= f = f a.
Proof. reflexivity. Qed.

Lemma bind_Raise {A B} (e : exn) (f : A -> result B) : Raise e ≫= f = Raise e.
Proof. reflexivity. Qed.

Lemma index_found (x : string) (l : list string) :
  x ∈ l -> exists i, index x l = Some i.
Proof.
  induction 1 as [x l|x y l _ [i IH]]; simpl.
  - rewrite String.eqb_refl. eauto.
  - destruct (String.eqb x y); [eauto|]. rewrite IH. simpl. eauto.
Qed.

(** [index] returns a position holding [x], and nothing before it does. *)
Lemma index_first (x : string) (l : list string) (i : nat) :
  index x l = Some i ->
  l !! i = Some x /\ forall j y, (j < i)%nat -> l !! j = Some y -> y <> x.
Proof.
  revert i. induction l as [|y l IH]; intros i; simpl; [done|].
  destruct (String.eqb_spec x y) as [->|Hne].
  - intros [= <-]. split; [done|]. intros j z Hj. lia.
  - destruct (index x l) as [k|] eqn:Hk; simpl; [|done].
    intros [= <-]. destruct (IH k eq_refl) as [Hk1 Hk2]. split; [done|].
    intros [|j] z Hj; simpl.
    + intros [= <-]. congruence.
    + apply Hk2. lia.
Qed.

(** ** The listing loop *)

Section EpochsFacts.
Variable py_int : string -> option Z.

(** With integer bounds and a limit not yet reached, the loop appends the
    window: skip up to [offset], take up to [limit]. *)
Lemma epochs_loop_window (n o : Z) (svs : list StateVector) :
  forall (acc : list string) (count oc : Z),
  0 <= count <= n ->
  epochs_loop (PInt n) (PInt o) svs acc count oc
  = Ok (acc ++ map EPOCH (take (Z.to_nat (n - count)) (drop (Z.to_nat (o - oc)) svs)))%list.
Proof.
  induction svs as [|d svs IH]; intros acc count oc Hc; simpl.
  - by rewrite drop_nil, take_nil, app_nil_r.
  - destruct (Z.eqb_spec count n) as [->|Hne].
    + by rewrite Z.sub_diag, app_nil_r.
    + destruct (Z.leb_spec o oc) as [Hle|Hlt]; simpl.
      * rewrite IH by lia.
        replace (Z.to_nat (o - oc)) with O by lia.
        replace (Z.to_nat (o - (oc + 1))) with O by lia.
        replace (Z.to_nat (n - count)) with (S (Z.to_nat (n - (count + 1)))) by lia.
        simpl. by rewrite <- app_assoc.
      * rewrite IH by lia.
        replace (Z.to_nat (o - oc)) with (S (Z.to_nat (o - (oc + 1)))) by lia.
        done.
Qed.

(** A limit that no count can equal never stops the loop. *)
Lemma epochs_loop_unbounded (limit : param) (o : Z) (svs : list StateVector) :
  forall (acc : list string) (count oc : Z),
  (forall c, count <= c -> int_eq c limit = false) ->
  epochs_loop limit (PInt o) svs acc count oc
  = Ok (acc ++ map EPOCH (drop (Z.to_nat (o - oc)) svs))%list.
Proof.
  induction svs as [|d svs IH]; intros acc count oc Hc; simpl.
  - by rewrite drop_nil, app_nil_r.
  - rewrite (Hc count) by lia.
    destruct (Z.leb_spec o oc) as [Hle|Hlt]; simpl.
    + rewrite IH by (intros; apply Hc; lia).
      replace (Z.to_nat (o - oc)) with O by lia.
      replace (Z.to_nat (o - (oc + 1))) with O by lia.
      simpl. by rewrite <- app_assoc.
    + rewrite IH by (intros; apply Hc; lia).
      replace (Z.to_nat (o - oc)) with (S (Z.to_nat (o - (oc + 1)))) by lia.
      done.
Qed.

(** An offset at or below the running position skips nothing, whatever the
    limit is. *)
Lemma epochs_loop_offset_passed (limit : param) (o : Z) (svs : list StateVector) :
  forall (acc : list string) (count oc : Z),
  o <= 0 -> 0 <= oc ->
  epochs_loop limit (PInt o) svs acc count oc
  = epochs_loop limit (PInt 0) svs acc count oc.
Proof.
  induction svs as [|d svs IH]; intros acc count oc Ho Hoc; simpl; [done|].
  destruct (int_eq count limit); [done|].
  replace (o <=? oc) with true by (symmetry; apply Z.leb_le; lia).
  replace (0 <=? oc) with true by (symmetry; apply Z.leb_le; lia).
  simpl. apply IH; lia.
Qed.

(** Whatever the bounds are, the loop only appends epochs of the records it
    walks over. *)
Lemma epochs_loop_sound (limit offset : param) (svs : list StateVector) :
  forall (acc : list string) (count oc : Z) (l : list string),
  epochs_loop limit offset svs acc count oc = Ok l ->
  forall e, e ∈ l -> e ∈ acc \/ e ∈ map EPOCH svs.
Proof.
  induction svs as [|d svs IH]; intros acc count oc l; simpl.
  - intros [= <-] e He. by left.
  - destruct (int_eq count limit).
    { intros [= <-] e He. by left. }
    destruct (int_ge oc offset) as [[]|] eqn:Hge; simpl; [| |done].
    + intros Hl e He. destruct (IH _ _ _ _ Hl e He) as [Hacc|Hin].
      * apply elem_of_app in Hacc as [Hacc|Hd]; [by left|].
        apply list_elem_of_singleton in Hd as ->. right. apply elem_of_cons. by left.
      * right. apply elem_of_cons. by right.
    + intros Hl e He. destruct (IH _ _ _ _ Hl e He) as [Hacc|Hin]; [by left|].
      right. apply elem_of_cons. by right.
Qed.

Lemma parse_param_default (default : Z) :
  parse_param py_int (PInt default) = Some (PInt default).
Proof.
  unfold parse_param. simpl. by destruct (default =? 0).
Qed.

Lemma truthy_nonempty (s : string) : s <> "" -> truthy (PStr s) = true.
Proof.
  intros Hs. simpl. destruct (String.eqb_spec s ""); done.
Qed.

Lemma parse_param_supplied (s : string) :
  s <> "" -> parse_param py_int (PStr s) = PInt <$> py_int s.
Proof.
  intros Hs. unfold parse_param. by rewrite truthy_nonempty.
Qed.

Lemma parse_param_empty : parse_param py_int (PStr "") = Some (PStr "").
Proof. reflexivity. Qed.

Section IntOfEmpty.
(** [int('')] raises [ValueError]. *)
Hypothesis py_int_empty : py_int "" = None.

Lemma arg_value_parse (a : option string) (default v : Z) :
  arg_value py_int a default = Some v ->
  parse_param py_int (args_get a default) = Some (PInt v).
Proof.
  destruct a as [s|]; simpl.
  - intros Hs. assert (s <> "") as Hne by (intros ->; congruence).
    rewrite parse_param_supplied by done. by rewrite Hs.
  - intros [= <-]. apply parse_param_default.
Qed.

(** The handler on integer parameters of any sign, before the loop. *)
Lemma epochs_unfold (req : request) (d : oem) (o n : Z) :
  arg_value py_int (arg_offset req) 0 = Some o ->
  arg_value py_int (arg_limit req) (Z.of_nat (length (stateVector d))) = Some n ->
  epochs py_int req (Document d)
  = VList <$> epochs_loop (PInt n) (PInt o) (stateVector d) [] 0 0.
Proof.
  intros Ho Hn. unfold epochs.
  by rewrite (arg_value_parse _ _ _ Ho), (arg_value_parse _ _ _ Hn).
Qed.

(** C1. For non-negative integers [o] and [n] as offset and limit (supplied,
    or left to their defaults 0 and the size of the store), [/epochs] on a
    loaded store returns the epochs of the records left after skipping the
    first [o] and taking up to [n], in store order; the list has
    [min n (max 0 (size - o))] elements, and it is empty when [o] is at
    least the size of the store or [n] is 0. *)
Theorem epochs_slice (req : request) (d : oem) (o n : Z) :
  arg_value py_int (arg_offset req) 0 = Some o ->
  arg_value py_int (arg_limit req) (Z.of_nat (length (stateVector d))) = Some n ->
  0 <= o -> 0 <= n ->
  let l := map EPOCH (take (Z.to_nat n) (drop (Z.to_nat o) (stateVector d))) in
  epochs py_int req (Document d) = Ok (VList l)
  /\ Z.of_nat (length l) = Z.min n (Z.max 0 (Z.of_nat (length (stateVector d)) - o))
  /\ (Z.of_nat (length (stateVector d)) <= o -> l = [])
  /\ (n = 0 -> l = []).
Proof.
  intros Ho Hn Ho0 Hn0 l. subst l. repeat split.
  - rewrite (epochs_unfold _ _ _ _ Ho Hn), epochs_loop_window by lia.
    simpl. by rewrite !Z.sub_0_r.
  - rewrite length_map, length_take, length_drop. lia.
  - intros Hlen. rewrite drop_ge by lia. by rewrite take_nil.
  - intros ->. done.
Qed.

(** C10. A supplied negative integer raises no error.  A negative offset
    gives what offset 0 gives, whatever the limit parameter is; a negative
    limit gives every record from the offset position to the end of the
    store. *)
Theorem epochs_negative_accepted (req : request) (d : oem) :
  (forall s o req0,
     arg_offset req = Some s -> py_int s = Some o -> o < 0 ->
     arg_value py_int (arg_offset req0) 0 = Some 0 ->
     arg_limit req0 = arg_limit req ->
     epochs py_int req (Document d) = epochs py_int req0 (Document d))
  /\ (forall s o n,
     arg_offset req = Some s -> py_int s = Some o -> o < 0 ->
     arg_value py_int (arg_limit req) (Z.of_nat (length (stateVector d))) = Some n ->
     0 <= n ->
     epochs py_int req (Document d)
     = Ok (VList (map EPOCH (take (Z.to_nat n) (stateVector d)))))
  /\ (forall s n o,
     arg_limit req = Some s -> py_int s = Some n -> n < 0 ->
     arg_value py_int (arg_offset req) 0 = Some o ->
     epochs py_int req (Document d)
     = Ok (VList (map EPOCH (drop (Z.to_nat o) (stateVector d))))).
Proof.
  repeat split.
  - intros s o req0 Hs Ho Hneg H0 Hlim. unfold epochs.
    rewrite (arg_value_parse (arg_offset req) 0 o) by (by rewrite Hs).
    rewrite (arg_value_parse _ _ _ H0), Hlim.
    destruct (parse_param py_int _) as [limit|]; [|done].
    f_equal. apply epochs_loop_offset_passed; lia.
  - intros s o n Hs Ho Hneg Hn Hn0.
    rewrite (epochs_unfold req d o n) by (by rewrite ?Hs).
    rewrite epochs_loop_offset_passed, epochs_loop_window by lia.
    simpl. by rewrite Z.sub_0_r.
  - intros s n o Hs Hn Hneg Ho.
    rewrite (epochs_unfold req d o n) by (by rewrite ?Hs).
    rewrite epochs_loop_unbounded.
    + simpl. by rewrite Z.sub_0_r.
    + intros c Hc. simpl. apply Z.eqb_neq. lia.
Qed.
End IntOfEmpty.

(** The validation that lines 48-58 do perform.  A supplied, non-empty offset
    or limit that [int] refuses makes [/epochs] return one of its two error
    messages, never a list: the offset message when the offset is refused,
    and for a refused limit the limit message unless the offset was refused
    first.  The sign of an integer is not looked at. *)
Theorem epochs_rejects_non_integer (req : request) (d : oem) :
  (refused py_int (arg_offset req) ->
     epochs py_int req (Document d) = Ok (VStr offset_error))
  /\ (refused py_int (arg_limit req) ->
     epochs py_int req (Document d) = Ok (VStr offset_error)
     \/ epochs py_int req (Document d) = Ok (VStr limit_error)).
Proof.
  split.
  - intros (s & Hs & Hne & Hint). unfold epochs. rewrite Hs. simpl.
    rewrite parse_param_supplied by done. by rewrite Hint.
  - intros (s & Hs & Hne & Hint). unfold epochs.
    destruct (parse_param py_int (args_get (arg_offset req) 0)); [|by left].
    rewrite Hs. simpl. rewrite parse_param_supplied by done. rewrite Hint. by right.
Qed.

(** ** Lookup of one epoch *)

Lemma lookup_map_EPOCH (svs : list StateVector) (i : nat) (e : string) :
  map EPOCH svs !! i = Some e -> exists sv, svs !! i = Some sv /\ EPOCH sv = e.
Proof.
  revert i. induction svs as [|d svs IH]; intros [|i]; simpl; try done.
  - intros [= <-]. eauto.
  - apply IH.
Qed.

Lemma lookup_EPOCH_map (svs : list StateVector) (i : nat) (sv : StateVector) :
  svs !! i = Some sv -> map EPOCH svs !! i = Some (EPOCH sv).
Proof.
  revert i. induction svs as [|d svs IH]; intros [|i]; simpl; try done.
  - by intros [= <-].
  - apply IH.
Qed.

Lemma state_vector_found (d : oem) (e : string) :
  e ∈ map EPOCH (stateVector d) ->
  exists sv, first_with_epoch (stateVector d) e sv
    /\ state_vector (Document d) e = Ok (VStateVector sv).
Proof.
  intros He. unfold state_vector. rewrite bool_decide_eq_true_2 by done.
  destruct (index_found _ _ He) as [i Hi]. rewrite Hi. simpl.
  destruct (index_first _ _ _ Hi) as [Hl Hfirst].
  destruct (lookup_map_EPOCH _ _ _ Hl) as (sv & Hsv & Hep).
  exists sv. rewrite Hsv. split; [|done].
  exists i. repeat split; [done..|].
  intros j sv' Hj Hsv'. apply (Hfirst j); [done|]. by apply lookup_EPOCH_map.
Qed.

Lemma state_vector_missing (d : oem) (e : string) :
  e ∉ map EPOCH (stateVector d) ->
  state_vector (Document d) e = Ok (VStr (invalid_epoch ++ newline)).
Proof.
  intros He. unfold state_vector. by rewrite bool_decide_eq_false_2.
Qed.

(** What [/epochs] lists is in the store, whatever the query string. *)
Lemma epochs_listed_in_store (req : request) (d : oem) (l : list string) (e : string) :
  epochs py_int req (Document d) = Ok (VList l) -> e ∈ l ->
  e ∈ map EPOCH (stateVector d).
Proof.
  unfold epochs.
  destruct (parse_param py_int _) as [offset|]; [|done].
  destruct (parse_param py_int _) as [limit|]; [|done].
  destruct (epochs_loop _ _ _ _ _ _) as [l'|] eqn:Hloop; simpl; [|done].
  intros [= <-] He.
  destruct (epochs_loop_sound _ _ _ _ _ _ _ Hloop e He) as [Hnil|Hin]; [|done].
  by apply elem_of_nil in Hnil.
Qed.

(** C6. On a loaded store [/epochs/<epoch>] returns the first record whose
    [EPOCH] is the requested string, and the not-found message when no
    record has exactly that [EPOCH]; every identifier that [/epochs] lists,
    under any query string, is found. *)
Theorem state_vector_exact_match (d : oem) (e : string) :
  (e ∈ map EPOCH (stateVector d) ->
     exists sv, first_with_epoch (stateVector d) e sv
       /\ state_vector (Document d) e = Ok (VStateVector sv))
  /\ (e ∉ map EPOCH (stateVector d) ->
     state_vector (Document d) e = Ok (VStr (invalid_epoch ++ newline)))
  /\ (forall req l, epochs py_int req (Document d) = Ok (VList l) -> e ∈ l ->
     exists sv, EPOCH sv = e /\ state_vector (Document d) e = Ok (VStateVector sv)).
Proof.
  split; [apply state_vector_found|]. split; [apply state_vector_missing|].
  intros req l Hl He.
  destruct (state_vector_found d e) as (sv & (i & _ & Hep & _) & Hsv).
  - by eapply epochs_listed_in_store.
  - eauto.
Qed.
End EpochsFacts.

(** ** Speed *)

(** IEEE addition commutes, NaN and signed zeros included. *)
Lemma fadd_comm (x y : float) : fadd x y = fadd y x.
Proof.
  destruct x as [[]|[]| |sx mx ex], y as [[]|[]| |sy my ey]; try reflexivity.
  unfold fadd, SFadd. rewrite (Z.min_comm ey ex). f_equal. apply Z.add_comm.
Qed.

Lemma lookup_map {A B} (f : A -> B) (l : list A) (i : nat) :
  map f l !! i = f <$> l !! i.
Proof.
  revert i. induction l as [|a l IH]; intros [|i]; simpl; done.
Qed.

Section SpeedFacts.
Variable py_int : string -> option Z.
Variable py_float : string -> option float.
Variable float_pow2 : float -> option float.

(** Without query parameters the listing is the whole store. *)
Lemma epochs_no_args (d : oem) :
  epochs py_int no_args (Document d) = Ok (VList (map EPOCH (stateVector d))).
Proof.
  unfold epochs. simpl. rewrite !parse_param_default.
  rewrite epochs_loop_window by lia. simpl.
  rewrite Z.sub_0_r, Nat2Z.id. by rewrite take_ge.
Qed.

(** Lines 123-129 on a record whose velocity texts are floats whose squares
    do not overflow. *)
Lemma speed_of_norm (sv : StateVector) (vx vy vz x2 y2 z2 : float) :
  py_float (X_DOT sv) = Some vx -> py_float (Y_DOT sv) = Some vy ->
  py_float (Z_DOT sv) = Some vz ->
  float_pow2 vx = Some x2 -> float_pow2 vy = Some y2 -> float_pow2 vz = Some z2 ->
  negative (fadd (fadd x2 y2) z2) = false ->
  speed_of py_float float_pow2 (VStateVector sv)
  = Ok (VSpeed (fsqrt (fadd (fadd x2 y2) z2)) "km/s").
Proof.
  intros Hx Hy Hz Hx2 Hy2 Hz2 Hneg. unfold speed_of, float_of, math_sqrt. simpl.
  rewrite Hx, Hy, Hz. simpl. rewrite Hx2, Hy2, Hz2. simpl. by rewrite Hneg.
Qed.

(** C4. For an epoch that the listing of the request contains, whose record
    has velocity texts reading as the floats [vx], [vy], [vz] with squares
    [x2], [y2], [z2], [/epochs/<epoch>/speed] returns the square root of
    [(x2 + y2) + z2] under the unit [km/s]. *)
Theorem speed_euclidean_norm (req : request) (d : oem) (e : string) (l : list string)
    (sv : StateVector) (vx vy vz x2 y2 z2 : float) :
  epochs py_int req (Document d) = Ok (VList l) -> e ∈ l ->
  state_vector (Document d) e = Ok (VStateVector sv) ->
  py_float (X_DOT sv) = Some vx -> py_float (Y_DOT sv) = Some vy ->
  py_float (Z_DOT sv) = Some vz ->
  float_pow2 vx = Some x2 -> float_pow2 vy = Some y2 -> float_pow2 vz = Some z2 ->
  negative (fadd (fadd x2 y2) z2) = false ->
  speed py_int py_float float_pow2 req (Document d) e
  = Ok (VSpeed (fsqrt (fadd (fadd x2 y2) z2)) "km/s").
Proof.
  intros Hl He Hsv Hx Hy Hz Hx2 Hy2 Hz2 Hneg. unfold speed.
  rewrite Hl, bind_Ok. unfold py_in. rewrite bool_decide_eq_true_2 by done.
  rewrite bind_Ok, Hsv, bind_Ok. by apply (speed_of_norm sv vx vy vz).
Qed.

(** Exchanging [X_DOT] and [Y_DOT] changes neither the value nor the
    exception of lines 123-129. *)
Lemma speed_of_swap_xy (sv : StateVector) :
  speed_of py_float float_pow2 (VStateVector (swap_xy sv))
  = speed_of py_float float_pow2 (VStateVector sv).
Proof.
  unfold speed_of, float_of. simpl.
  destruct (py_float (X_DOT sv)) as [vx|], (py_float (Y_DOT sv)) as [vy|];
    simpl; try done.
  destruct (py_float (Z_DOT sv)) as [vz|]; simpl; [|done].
  destruct (float_pow2 vx) as [x2|], (float_pow2 vy) as [y2|]; simpl; try done.
  by rewrite (fadd_comm y2 x2).
Qed.

Lemma epochs_loop_swap (limit offset : param) (svs : list StateVector) :
  forall (acc : list string) (count oc : Z),
  epochs_loop limit offset (map swap_xy svs) acc count oc
  = epochs_loop limit offset svs acc count oc.
Proof.
  induction svs as [|d svs IH]; intros acc count oc; simpl; [done|].
  destruct (int_eq count limit); [done|].
  destruct (int_ge oc offset) as [[]|]; simpl; by rewrite ?IH.
Qed.

Lemma epochs_swap (req : request) (d : oem) :
  epochs py_int req (Document (swap_store d)) = epochs py_int req (Document d).
Proof.
  unfold epochs. simpl. rewrite length_map.
  destruct (parse_param py_int _) as [offset|]; [|done].
  destruct (parse_param py_int _) as [limit|]; [|done].
  by rewrite epochs_loop_swap.
Qed.

Lemma map_EPOCH_swap (svs : list StateVector) :
  map EPOCH (map swap_xy svs) = map EPOCH svs.
Proof. rewrite map_map. by apply map_ext. Qed.

Lemma state_vector_swap (d : oem) (e : string) :
  state_vector (Document (swap_store d)) e
  = match state_vector (Document d) e with
    | Ok (VStateVector sv) => Ok (VStateVector (swap_xy sv))
    | r => r
    end.
Proof.
  unfold state_vector. simpl. rewrite map_EPOCH_swap.
  destruct (bool_decide _); [|done].
  destruct (index e _) as [i|]; simpl; [|done].
  rewrite lookup_map. by destruct (stateVector d !! i).
Qed.

(** C9, as the code has it. Exchanging the first two velocity components of
    the records of the store leaves the answer of [/epochs/<epoch>/speed]
    unchanged, for every epoch and query string: same value, same message,
    same exception. *)
Theorem speed_invariant_under_xy_swap (req : request) (d : oem) (e : string) :
  speed py_int py_float float_pow2 req (Document (swap_store d)) e
  = speed py_int py_float float_pow2 req (Document d) e.
Proof.
  unfold speed. rewrite epochs_swap.
  destruct (epochs py_int req (Document d)) as [allEpochs|]; [rewrite !bind_Ok|done].
  destruct (py_in e allEpochs) as [[]|]; [rewrite !bind_Ok|done..].
  rewrite state_vector_swap.
  destruct (state_vector (Document d) e) as [[]|]; try done.
  rewrite !bind_Ok. apply speed_of_swap_xy.
Qed.
End SpeedFacts.

(** ** Location *)

Lemma load_geocode : load_global "geocode" = Raise NameError.
Proof. reflexivity. Qed.

Lemma subscript_state_vector :
  subscript_function "state_vector" "EPOCH" = Raise TypeError.
Proof. reflexivity. Qed.

Lemma store_longitude_above (locationData : gmap string locval) (longitude : float) :
  fltb (of_int 180) longitude = true ->
  store_longitude locationData longitude !! "LONGITUDE"
  = Some (LFloat (fsub longitude (of_int 360))).
Proof.
  intros Hgt. unfold store_longitude. rewrite Hgt. apply lookup_insert_eq.
Qed.

Lemma store_longitude_below (locationData : gmap string locval) (longitude : float) :
  fltb (of_int 180) longitude = false -> fltb longitude (of_int (-180)) = true ->
  store_longitude locationData longitude !! "LONGITUDE"
  = Some (LFloat (fadd longitude (of_int 360))).
Proof.
  intros Hgt Hlt. unfold store_longitude. rewrite Hgt, Hlt. apply lookup_insert_eq.
Qed.

(** C2. Where the code departs from the claim: a raw longitude that is
    neither above 180 nor below -180 is not stored, so after lines 284-287
    the dictionary that holds the latitude has no ['LONGITUDE'] entry. *)
Theorem longitude_in_range_not_stored (latitude : locval) (longitude : float) :
  fltb (of_int 180) longitude = false ->
  fltb longitude (of_int (-180)) = false ->
  store_longitude (<["LATITUDE" := latitude]> ∅) longitude !! "LONGITUDE" = None.
Proof.
  intros Hgt Hlt. unfold store_longitude. rewrite Hgt, Hlt.
  rewrite lookup_insert_ne by done. apply lookup_empty.
Qed.

(** One step of a handler whose outcome is being classified: either the
    call at the head raises, or the handler goes on with its value. *)
Ltac bind_case :=
  lazymatch goal with
  | |- returns_location (?m ≫= _) = false =>
      lazymatch m with
      | load_global _ => fail
      | subscript_function _ _ => fail
      | _ => destruct m; [rewrite bind_Ok|reflexivity]
      end
  end.

Section LocationFacts.
Variable py_int : string -> option Z.
Variable py_float : string -> option float.
Variable float_pow2 : float -> option float.
Variable atan2 : float -> float -> float.
Variable degrees : float -> float.
Variable reverse : locval -> locval -> option (list (string * string)).

(** Lines 275-298 never return: every run that reaches line 292 stops at
    the unbound name [geocode]. *)
Lemma location_body_never_returns (epoch : string) (epochData : value) :
  returns_location
    (location_body py_int py_float float_pow2 atan2 degrees reverse epoch epochData)
  = false.
Proof.
  unfold location_body. repeat bind_case. by rewrite load_geocode.
Qed.

(** C8. Where the code departs from the claim: [location] returns no
    location dictionary, for any data set, query string and epoch. *)
Theorem location_never_returns_location (req : request) (data : dataset) (epoch : string) :
  returns_location
    (location py_int py_float float_pow2 atan2 degrees reverse req data epoch)
  = false.
Proof.
  unfold location. destruct data as [|d]; [done|].
  do 2 bind_case.
  lazymatch goal with
  | |- returns_location (if ?found then _ else _) = false => destruct found; [|done]
  end.
  bind_case. by rewrite subscript_state_vector.
Qed.

(** For an epoch that the listing contains the handler stops at line 274. *)
Lemma location_listed_epoch_raises (req : request) (d : oem) (l : list string)
    (epoch : string) :
  epochs py_int req (Document d) = Ok (VList l) -> epoch ∈ l ->
  location py_int py_float float_pow2 atan2 degrees reverse req (Document d) epoch
  = Raise TypeError.
Proof.
  intros Hl He. unfold location. rewrite Hl, bind_Ok. unfold py_in.
  rewrite bool_decide_eq_true_2, bind_Ok by done.
  destruct (state_vector_found d epoch) as (sv & _ & ->).
  - by eapply epochs_listed_in_store.
  - by rewrite bind_Ok, subscript_state_vector.
Qed.
End LocationFacts.

(** ** Nearest epoch *)

Section NowFacts.
Variable py_int : string -> option Z.
Variable py_float : string -> option float.
Variable float_pow2 : float -> option float.
Variable atan2 : float -> float -> float.
Variable degrees : float -> float.
Variable reverse : locval -> locval -> option (list (string * string)).
Variable time_time : nat -> float.
Variable epoch_seconds : string -> option float.

(** C3. Where the code departs from the claim: on every loaded store, and
    whatever the clock reads, [now] raises [KeyError] at line 320, on
    [data[0]], before it looks at any record. *)
Theorem now_raises_on_loaded_store (req : request) (d : oem) :
  now py_int py_float float_pow2 atan2 degrees reverse time_time epoch_seconds
      req (Document d)
  = Raise KeyError.
Proof.
  unfold now.
  (* line 312: the document has its state vectors *)
  change (stateVectors_of (Document d)) with (Ok (stateVector d)). rewrite bind_Ok.
  (* line 320: [data[0]] *)
  change (subscript_int (Document d) 0) with (@Raise value KeyError).
  apply bind_Raise.
Qed.

(** C7. Where the code departs from the claim: once [delete_data] has run,
    the listing, the lookup, the speed, the location and the three
    auxiliary handlers return the empty list, and [now] raises [TypeError]
    at line 312, ahead of its own test for the empty data set. *)
Theorem queries_after_delete (req : request) (data : dataset) (epoch : string) :
  let data' := (delete_data data).1 in
  epochs py_int req data' = Ok (VList [])
  /\ state_vector data' epoch = Ok (VList [])
  /\ speed py_int py_float float_pow2 req data' epoch = Ok (VList [])
  /\ location py_int py_float float_pow2 atan2 degrees reverse req data' epoch
     = Ok (VList [])
  /\ comment_list data' = Ok (VList [])
  /\ header_dict data' = Ok (VList [])
  /\ metadata_ data' = Ok (VList [])
  /\ now py_int py_float float_pow2 atan2 degrees reverse time_time epoch_seconds
         req data'
     = Raise TypeError.
Proof. do 7 (split; [reflexivity|]). reflexivity. Qed.
End NowFacts.

(** ** The statements at concrete inputs *)


Lemma epochs_slice_witness :
  int_literal "" = None
  /\ arg_value int_literal (arg_offset window_request) 0 = Some 1
  /\ arg_value int_literal (arg_limit window_request) 3 = Some 2
  /\ 0 <= 1 /\ 0 <= 2
  /\ epochs int_literal window_request sample = Ok (VList [epoch2; epoch3]).
Proof.
  do 5 (split; [first [reflexivity|discriminate]|]).
  exact (proj1 (epochs_slice int_literal eq_refl window_request sample_oem 1 2
                  eq_refl eq_refl ltac:(discriminate) ltac:(discriminate))).
Defined.


Lemma epochs_negative_accepted_witness :
  int_literal "" = None
  /\ int_literal "-2" = Some (-2) /\ -2 < 0
  /\ int_literal "-1" = Some (-1) /\ -1 < 0
  /\ epochs int_literal negative_offset_request sample
     = epochs int_literal {| arg_offset := Some "0"; arg_limit := Some "2" |} sample
  /\ epochs int_literal negative_offset_request sample = Ok (VList [epoch1; epoch2])
  /\ epochs int_literal negative_limit_request sample = Ok (VList [epoch2; epoch3]).
Proof.
  do 5 (split; [reflexivity|]). split; [|split].
  - exact (proj1 (epochs_negative_accepted int_literal eq_refl
                    negative_offset_request sample_oem)
             "-2" (-2) {| arg_offset := Some "0"; arg_limit := Some "2" |}
             eq_refl eq_refl eq_refl eq_refl eq_refl).
  - exact (proj1 (proj2 (epochs_negative_accepted int_literal eq_refl
                           negative_offset_request sample_oem))
             "-2" (-2) 2 eq_refl eq_refl eq_refl eq_refl ltac:(discriminate)).
  - exact (proj2 (proj2 (epochs_negative_accepted int_literal eq_refl
                           negative_limit_request sample_oem))
             "-1" (-1) 1 eq_refl eq_refl eq_refl eq_refl).
Defined.

(** C5. Where the code departs from the claim: the messages of lines 52 and
    58 ask for a parameter "greater than 0", and no line checks the sign.
    The offset [-1] does not read as a non-negative integer, and the listing
    answers it with the whole store instead of the message; an empty
    [limit] is not an integer either, and is answered the same way. *)
Lemma epochs_negative_offset_listed :
  int_literal "-1" = Some (-1)
  /\ epochs int_literal {| arg_offset := Some "-1"; arg_limit := None |} sample
     = Ok (VList [epoch1; epoch2; epoch3])
  /\ int_literal "" = None
  /\ epochs int_literal {| arg_offset := None; arg_limit := Some "" |} sample
     = Ok (VList [epoch1; epoch2; epoch3]).
Proof. do 3 (split; [reflexivity|]). reflexivity. Qed.


Lemma refused_offset : refused int_literal (arg_offset refused_request).
Proof. exists "1.5". split; [reflexivity|]. split; [discriminate|reflexivity]. Defined.

Lemma refused_limit : refused int_literal (arg_limit refused_request).
Proof. exists "ten". split; [reflexivity|]. split; [discriminate|reflexivity]. Defined.

Lemma epochs_rejects_non_integer_witness :
  refused int_literal (arg_offset refused_request)
  /\ refused int_literal (arg_limit refused_request)
  /\ epochs int_literal refused_request sample = Ok (VStr offset_error)
  /\ (epochs int_literal refused_request sample = Ok (VStr offset_error)
      \/ epochs int_literal refused_request sample = Ok (VStr limit_error)).
Proof.
  split; [exact refused_offset|]. split; [exact refused_limit|]. split.
  - exact (proj1 (epochs_rejects_non_integer int_literal refused_request sample_oem)
             refused_offset).
  - exact (proj2 (epochs_rejects_non_integer int_literal refused_request sample_oem)
             refused_limit).
Defined.

Lemma epoch2_in_sample : epoch2 ∈ map EPOCH (stateVector sample_oem).
Proof. apply list_elem_of_In. simpl. right. left. reflexivity. Defined.

Lemma epoch2_prefix_not_in_sample :
  "2023-058T12:04" ∉ map EPOCH (stateVector sample_oem).
Proof.
  intros H. apply list_elem_of_In in H. simpl in H.
  destruct H as [H|[H|[H|[]]]]; discriminate H.
Defined.

Lemma state_vector_exact_match_witness :
  (epoch2 ∈ map EPOCH (stateVector sample_oem))
  /\ ("2023-058T12:04" ∉ map EPOCH (stateVector sample_oem))
  /\ (exists sv, first_with_epoch (stateVector sample_oem) epoch2 sv
        /\ state_vector sample epoch2 = Ok (VStateVector sv))
  /\ state_vector sample "2023-058T12:04" = Ok (VStr (invalid_epoch ++ newline))
  /\ (exists sv, EPOCH sv = epoch2
        /\ state_vector sample epoch2 = Ok (VStateVector sv)).
Proof.
  split; [exact epoch2_in_sample|]. split; [exact epoch2_prefix_not_in_sample|].
  split; [|split].
  - exact (proj1 (state_vector_exact_match int_literal sample_oem epoch2)
             epoch2_in_sample).
  - exact (proj1 (proj2 (state_vector_exact_match int_literal sample_oem
                           "2023-058T12:04"))
             epoch2_prefix_not_in_sample).
  - refine (proj2 (proj2 (state_vector_exact_match int_literal sample_oem epoch2))
              window_request [epoch2; epoch3] eq_refl _).
    apply list_elem_of_In. left. reflexivity.
Defined.

(** The record of [epoch1] has velocity (3, 4, 0): its speed is 5.0. *)
Lemma speed_euclidean_norm_witness :
  epochs int_literal no_args sample = Ok (VList [epoch1; epoch2; epoch3])
  /\ epoch1 ∈ [epoch1; epoch2; epoch3]
  /\ state_vector sample epoch1 = Ok (VStateVector (sample_vector epoch1 "3" "4" "0"))
  /\ float_literal "3" = Some (of_int 3) /\ float_literal "4" = Some (of_int 4)
  /\ float_literal "0" = Some (of_int 0)
  /\ ieee_pow2 (of_int 3) = Some (of_int 9) /\ ieee_pow2 (of_int 4) = Some (of_int 16)
  /\ ieee_pow2 (of_int 0) = Some (of_int 0)
  /\ negative (fadd (fadd (of_int 9) (of_int 16)) (of_int 0)) = false
  /\ speed int_literal float_literal ieee_pow2 no_args sample epoch1
     = Ok (VSpeed (of_int 5) "km/s").
Proof.
  assert (epoch1 ∈ [epoch1; epoch2; epoch3]) as Hin
    by (apply list_elem_of_In; left; reflexivity).
  split; [reflexivity|]. split; [exact Hin|]. do 8 (split; [reflexivity|]).
  exact (speed_euclidean_norm int_literal float_literal ieee_pow2 no_args sample_oem
           epoch1 [epoch1; epoch2; epoch3] (sample_vector epoch1 "3" "4" "0")
           (of_int 3) (of_int 4) (of_int 0) (of_int 9) (of_int 16) (of_int 0)
           eq_refl Hin eq_refl eq_refl eq_refl eq_refl eq_refl eq_refl eq_refl eq_refl).
Defined.

(** C9 as stated fails: no parsing of floats, no squaring and no record
    make the speed of the exchanged record differ. *)
Lemma speed_of_swap_never_differs :
  ~ exists (py_float : string -> option float) (float_pow2 : float -> option float)
      (sv : StateVector),
      speed_of py_float float_pow2 (VStateVector (swap_xy sv))
      <> speed_of py_float float_pow2 (VStateVector sv).
Proof.
  intros (py_float & float_pow2 & sv & Hne). apply Hne, speed_of_swap_xy.
Qed.

(** Raw longitude 0: in range, and dropped. *)
Lemma longitude_in_range_not_stored_witness :
  fltb (of_int 180) (of_int 0) = false
  /\ fltb (of_int 0) (of_int (-180)) = false
  /\ store_longitude (<["LATITUDE" := LFloat (of_int 10)]> ∅) (of_int 0) !! "LONGITUDE"
     = None.
Proof.
  do 2 (split; [reflexivity|]).
  exact (longitude_in_range_not_stored (LFloat (of_int 10)) (of_int 0) eq_refl eq_refl).
Defined.

(** The two branches that the code has: 190 is stored as -170, -190 as 170. *)
Example store_longitude_190 :
  store_longitude ∅ (of_int 190) !! "LONGITUDE" = Some (LFloat (of_int (-170))).
Proof. reflexivity. Qed.

Example store_longitude_minus_190 :
  store_longitude ∅ (of_int (-190)) !! "LONGITUDE" = Some (LFloat (of_int 170)).
Proof. reflexivity. Qed.

(** The location of a listed epoch, whatever the C library and the geocoder
    compute. *)
Example location_epoch1_raises
    (atan2 : float -> float -> float) (degrees : float -> float)
    (reverse : locval -> locval -> option (list (string * string))) :
  location int_literal float_literal ieee_pow2 atan2 degrees reverse no_args sample epoch1
  = Raise TypeError.
Proof. reflexivity. Qed.

(** The query string of the speed request reaches the listing: with
    [limit=0] a present epoch is answered as invalid. *)
Example speed_reads_query_string :
  speed int_literal float_literal ieee_pow2
        {| arg_offset := None; arg_limit := Some "0" |} sample epoch1
  = Ok (VStr invalid_epoch).
Proof. reflexivity. Qed.

(** An empty [offset] is kept as a string and the loop raises on its first
    comparison. *)
Example epochs_empty_offset_raises :
  epochs int_literal {| arg_offset := Some ""; arg_limit := None |} sample
  = Raise TypeError.
Proof. reflexivity. Qed.

(** * Further properties of the handlers *)

(** ** The listing under any query string *)

(** With an offset left as a string the loop cannot append: it stops at
    once or raises. *)
Lemma epochs_loop_str_offset (limit : param) (s : string) (svs : list StateVector)
    (acc : list string) (count oc : Z) (l : list string) :
  epochs_loop limit (PStr s) svs acc count oc = Ok l -> l = acc.
Proof.
  destruct svs as [|d svs]; simpl; [congruence|].
  destruct (int_eq count limit); [congruence|done].
Qed.

Lemma epochs_loop_is_window (limit offset : param) (svs : list StateVector)
    (l : list string) :
  epochs_loop limit offset svs [] 0 0 = Ok l ->
  exists i n : nat, l = map EPOCH (take n (drop i svs)).
Proof.
  destruct offset as [o|s].
  - assert (forall i, map EPOCH (drop i svs)
              = map EPOCH (take (length svs) (drop i svs))) as Hall.
    { intros i. rewrite take_ge; [done|]. rewrite length_drop. lia. }
    destruct limit as [n|sl].
    + destruct (Z.le_gt_cases 0 n) as [Hn|Hn].
      * rewrite epochs_loop_window by lia. intros [= <-]. simpl. eauto.
      * rewrite epochs_loop_unbounded.
        -- intros [= <-]. simpl. rewrite Hall. eauto.
        -- intros c Hc. simpl. apply Z.eqb_neq. lia.
    + rewrite epochs_loop_unbounded by done.
      intros [= <-]. simpl. rewrite Hall. eauto.
  - intros ->%epochs_loop_str_offset. by exists O, O.
Qed.

Section ListingFacts.
Variable py_int : string -> option Z.

(** X1. Whatever the query string, a list that [/epochs] returns on a
    loaded store is a run of consecutive records of the store, in store
    order: the epochs of [take n (drop i store)] for some [i] and [n]. *)
Theorem epochs_any_query_is_window (req : request) (d : oem) (l : list string) :
  epochs py_int req (Document d) = Ok (VList l) ->
  exists i n : nat, l = map EPOCH (take n (drop i (stateVector d))).
Proof.
  unfold epochs.
  destruct (parse_param py_int _) as [offset|]; [|done].
  destruct (parse_param py_int _) as [limit|]; [|done].
  destruct (epochs_loop _ _ _ _ _ _) as [l'|] eqn:Hloop; simpl; [|done].
  intros [= <-]. by eapply epochs_loop_is_window.
Qed.

(** X6. When the epochs of the store are pairwise distinct, no list that
    [/epochs] returns repeats an identifier. *)
Theorem epochs_no_repetition (req : request) (d : oem) (l : list string) :
  NoDup (map EPOCH (stateVector d)) ->
  epochs py_int req (Document d) = Ok (VList l) ->
  NoDup l.
Proof.
  intros Hnodup Hl.
  destruct (epochs_any_query_is_window req d l Hl) as (i & n & ->).
  rewrite <- firstn_map, <- skipn_map.
  eapply sublist_NoDup; [exact Hnodup|].
  etrans; [apply sublist_take|apply sublist_drop].
Qed.

Section IntOfEmptyMore.
Hypothesis py_int_empty : py_int "" = None.

(** X2. Pages compose: for non-negative integers, the page of [n] records
    at offset [o] followed by the page of [m] records at offset [o + n] is
    the page of [n + m] records at offset [o]. *)
Theorem epochs_pages_compose (req1 req2 req3 : request) (d : oem) (o n m : Z) :
  0 <= o -> 0 <= n -> 0 <= m ->
  arg_value py_int (arg_offset req1) 0 = Some o ->
  arg_value py_int (arg_limit req1) (Z.of_nat (length (stateVector d))) = Some n ->
  arg_value py_int (arg_offset req2) 0 = Some (o + n) ->
  arg_value py_int (arg_limit req2) (Z.of_nat (length (stateVector d))) = Some m ->
  arg_value py_int (arg_offset req3) 0 = Some o ->
  arg_value py_int (arg_limit req3) (Z.of_nat (length (stateVector d))) = Some (n + m) ->
  exists l1 l2,
    epochs py_int req1 (Document d) = Ok (VList l1)
    /\ epochs py_int req2 (Document d) = Ok (VList l2)
    /\ epochs py_int req3 (Document d) = Ok (VList (l1 ++ l2)).
Proof.
  intros Ho Hn Hm Ho1 Hn1 Ho2 Hn2 Ho3 Hn3.
  rewrite (epochs_unfold py_int py_int_empty req1 d o n) by done.
  rewrite (epochs_unfold py_int py_int_empty req2 d (o + n) m) by done.
  rewrite (epochs_unfold py_int py_int_empty req3 d o (n + m)) by done.
  rewrite !epochs_loop_window by lia. simpl. rewrite !Z.sub_0_r.
  eexists _, _. split; [done|]. split; [done|].
  rewrite <- map_app. do 3 f_equal.
  replace (Z.to_nat (o + n)) with (Z.to_nat o + Z.to_nat n)%nat by lia.
  replace (Z.to_nat (n + m)) with (Z.to_nat n + Z.to_nat m)%nat by lia.
  by rewrite <- drop_drop, take_take_drop.
Qed.

(** X3. A [limit] supplied empty is kept as a string, which no count equals:
    the handler returns every record from the offset on, without an error. *)
Theorem epochs_empty_limit_unbounded (req : request) (d : oem) (o : Z) :
  arg_limit req = Some "" ->
  arg_value py_int (arg_offset req) 0 = Some o ->
  epochs py_int req (Document d)
  = Ok (VList (map EPOCH (drop (Z.to_nat o) (stateVector d)))).
Proof.
  intros Hlim Ho. unfold epochs.
  rewrite (arg_value_parse py_int py_int_empty _ _ _ Ho), Hlim. simpl.
  rewrite epochs_loop_unbounded by done. simpl. by rewrite Z.sub_0_r.
Qed.

(** X4. An [offset] supplied empty is kept as a string.  With an integer
    limit other than 0 and a store that has a record, the first comparison
    of the loop raises [TypeError]; with limit 0 the loop stops before it
    and the answer is the empty list. *)
Theorem epochs_empty_offset (req : request) (d : oem) (n : Z) :
  arg_offset req = Some "" ->
  arg_value py_int (arg_limit req) (Z.of_nat (length (stateVector d))) = Some n ->
  (n <> 0 -> stateVector d <> [] -> epochs py_int req (Document d) = Raise TypeError)
  /\ (n = 0 -> epochs py_int req (Document d) = Ok (VList [])).
Proof.
  intros Hoff Hn. unfold epochs.
  rewrite Hoff, (arg_value_parse py_int py_int_empty _ _ _ Hn).
  rewrite parse_param_empty. split.
  - intros Hn0 Hne. destruct (stateVector d) as [|sv svs]; [done|].
    unfold epochs_loop, int_eq.
    replace (0 =? n) with false by (symmetry; apply Z.eqb_neq; lia). done.
  - intros ->. by destruct (stateVector d).
Qed.
End IntOfEmptyMore.
End ListingFacts.

(** ** Lookup in a store of distinct epochs *)

(** X5. When the epochs of the store are pairwise distinct, looking up the
    epoch of any record of the store returns that very record. *)
Theorem state_vector_returns_own_record (d : oem) (i : nat) (sv : StateVector) :
  NoDup (map EPOCH (stateVector d)) ->
  stateVector d !! i = Some sv ->
  state_vector (Document d) (EPOCH sv) = Ok (VStateVector sv).
Proof.
  intros Hnodup Hi.
  destruct (state_vector_found d (EPOCH sv)) as (sv' & (j & Hj & Hep & _) & ->).
  { apply list_elem_of_lookup. exists i. by apply lookup_EPOCH_map. }
  assert (j = i) as ->.
  { eapply NoDup_lookup; [exact Hnodup|..].
    - rewrite (lookup_EPOCH_map _ _ _ Hj). by rewrite Hep.
    - by apply lookup_EPOCH_map. }
  congruence.
Qed.

(** ** The answers of the speed handler *)

Lemma binary_round_aux_not_negative (mx ex : Z) (lx : SpecFloat.location) :
  negative (binary_round_aux prec emax false mx ex lx) = false.
Proof.
  unfold binary_round_aux.
  destruct (shr_fexp _ _ _ _ _) as [mrs' e'].
  destruct (shr_fexp _ _ _ _ _) as [mrs'' e''].
  destruct (shr_m mrs''); [done| |done]. by destruct (_ <=? _).
Qed.

(** A square root is a NaN, a zero or a positive number. *)
Lemma fsqrt_not_negative (x : float) : negative (fsqrt x) = false.
Proof.
  destruct x as [s|[]| |[] m e]; try done.
  unfold fsqrt, SFsqrt. destruct (SFsqrt_core_binary _ _ _ _) as [[mz ez] lz].
  apply binary_round_aux_not_negative.
Qed.

Section SpeedAnswers.
Variable py_int : string -> option Z.
Variable py_float : string -> option float.
Variable float_pow2 : float -> option float.

Lemma speed_of_answer (epochData r : value) :
  speed_of py_float float_pow2 epochData = Ok r ->
  exists v, r = VSpeed v "km/s" /\ negative v = false.
Proof.
  unfold speed_of.
  destruct (float_of _ _ X_DOT) as [x|]; [rewrite bind_Ok|done].
  destruct (float_of _ _ Y_DOT) as [y|]; [rewrite bind_Ok|done].
  destruct (float_of _ _ Z_DOT) as [z|]; [rewrite bind_Ok|done].
  destruct (float_pow2 x) as [x2|]; [cbn [or_raise]; rewrite bind_Ok|done].
  destruct (float_pow2 y) as [y2|]; [cbn [or_raise]; rewrite bind_Ok|done].
  destruct (float_pow2 z) as [z2|]; [cbn [or_raise]; rewrite bind_Ok|done].
  unfold math_sqrt. destruct (negative (fadd _ _)); [done|].
  rewrite bind_Ok. intros [= <-]. eexists. split; [done|]. apply fsqrt_not_negative.
Qed.

(** X9. Whatever the builtins compute, an answer of the speed handler is
    the empty list (emptied data set), the invalid-epoch message, or a
    speed whose unit is [km/s] and whose value is not negative. *)
Theorem speed_answers (req : request) (data : dataset) (epoch : string) (r : value) :
  speed py_int py_float float_pow2 req data epoch = Ok r ->
  (data = EmptyList /\ r = VList [])
  \/ r = VStr invalid_epoch
  \/ exists v, r = VSpeed v "km/s" /\ negative v = false.
Proof.
  unfold speed. destruct data as [|d].
  { intros [= <-]. by left. }
  destruct (epochs py_int req (Document d)) as [allEpochs|]; [rewrite bind_Ok|done].
  destruct (py_in epoch allEpochs) as [[]|]; [rewrite bind_Ok| |done].
  - destruct (state_vector (Document d) epoch) as [epochData|]; [rewrite bind_Ok|done].
    intros Hr. right. right. by eapply speed_of_answer.
  - rewrite bind_Ok. intros [= <-]. right. by left.
Qed.

(** X7. An epoch that the listing of the request does not contain is
    answered with the invalid-epoch message, also when the store has it
    outside the window of the query string. *)
Theorem speed_outside_listing (req : request) (d : oem) (l : list string)
    (epoch : string) :
  epochs py_int req (Document d) = Ok (VList l) -> epoch ∉ l ->
  speed py_int py_float float_pow2 req (Document d) epoch = Ok (VStr invalid_epoch).
Proof.
  intros Hl He. unfold speed. rewrite Hl, bind_Ok. unfold py_in.
  by rewrite bool_decide_eq_false_2.
Qed.

(** X8. For a listed epoch whose record has a velocity text that [float]
    refuses, the handler raises [ValueError]; nothing catches it. *)
Theorem speed_refused_velocity_text (req : request) (d : oem) (l : list string)
    (epoch : string) (sv : StateVector) :
  epochs py_int req (Document d) = Ok (VList l) -> epoch ∈ l ->
  state_vector (Document d) epoch = Ok (VStateVector sv) ->
  py_float (X_DOT sv) = None \/ py_float (Y_DOT sv) = None \/ py_float (Z_DOT sv) = None ->
  speed py_int py_float float_pow2 req (Document d) epoch = Raise ValueError.
Proof.
  intros Hl He Hsv Hbad. unfold speed. rewrite Hl, bind_Ok. unfold py_in.
  rewrite bool_decide_eq_true_2, bind_Ok, Hsv, bind_Ok by done.
  unfold speed_of, float_of. simpl.
  destruct (py_float (X_DOT sv)) as [x|]; [|done].
  destruct (py_float (Y_DOT sv)) as [y|]; [|done].
  destruct (py_float (Z_DOT sv)) as [z|]; [|done].
  by destruct Hbad as [?|[?|?]].
Qed.

(** X10. When the offset of the query string is refused, the speed handler
    tests its epoch against the error message of the listing, as a
    substring: an epoch that is no part of the message is answered as
    invalid, and one that is part of it and is no epoch of the store makes
    the handler raise [TypeError]. *)
Theorem speed_under_refused_offset (req : request) (d : oem) (epoch : string) :
  refused py_int (arg_offset req) ->
  (is_substring epoch offset_error = false ->
     speed py_int py_float float_pow2 req (Document d) epoch = Ok (VStr invalid_epoch))
  /\ (is_substring epoch offset_error = true ->
      epoch ∉ map EPOCH (stateVector d) ->
      speed py_int py_float float_pow2 req (Document d) epoch = Raise TypeError).
Proof.
  intros (s & Hs & Hne & Hint).
  assert (epochs py_int req (Document d) = Ok (VStr offset_error)) as Hl.
  { unfold epochs. rewrite Hs. simpl.
    rewrite parse_param_supplied by done. by rewrite Hint. }
  unfold speed. rewrite Hl, bind_Ok. unfold py_in. split.
  - by intros ->.
  - intros -> Hmiss. rewrite bind_Ok, state_vector_missing by done. done.
Qed.
End SpeedAnswers.

(** ** The location handler and its body *)

Lemma slice_past_end (i j : nat) (s : string) :
  (String.length s <= i)%nat -> slice i j s = "".
Proof.
  unfold slice. generalize (j - i)%nat as m. revert i.
  induction s as [|c s IH]; intros [|i] m Hlen; simpl in *; try done; try lia.
  - by destruct m.
  - apply IH. lia.
Qed.

(** X14. Lines 284-287 write no key but ['LONGITUDE']: every other entry
    of the dictionary, the latitude among them, is left as it was. *)
Theorem store_longitude_lookup_other (locationData : gmap string locval)
    (longitude : float) (key : string) :
  key <> "LONGITUDE" ->
  store_longitude locationData longitude !! key = locationData !! key.
Proof.
  intros Hkey. unfold store_longitude.
  destruct (fltb _ _); [by rewrite lookup_insert_ne|].
  destruct (fltb _ _); [by rewrite lookup_insert_ne|done].
Qed.

Section LocationAnswers.
Variable py_int : string -> option Z.
Variable py_float : string -> option float.
Variable float_pow2 : float -> option float.
Variable atan2 : float -> float -> float.
Variable degrees : float -> float.
Variable reverse : locval -> locval -> option (list (string * string)).

(** X11. An epoch that the listing of the request does not contain makes
    [location] end without a [return]: the answer is [None], not the
    invalid-epoch message of the speed handler. *)
Theorem location_outside_listing (req : request) (d : oem) (l : list string)
    (epoch : string) :
  epochs py_int req (Document d) = Ok (VList l) -> epoch ∉ l ->
  location py_int py_float float_pow2 atan2 degrees reverse req (Document d) epoch
  = Ok VNone.
Proof.
  intros Hl He. unfold location. rewrite Hl, bind_Ok. unfold py_in.
  by rewrite bool_decide_eq_false_2.
Qed.

(** X12. Lines 275-276 read the hour at the fixed positions 9-10: on an
    epoch string of at most nine characters the slice is empty and [int]
    raises [ValueError]. *)
Theorem location_body_short_epoch (epoch : string) (epochData : value) :
  py_int "" = None ->
  (String.length epoch <= 9)%nat ->
  location_body py_int py_float float_pow2 atan2 degrees reverse epoch epochData
  = Raise ValueError.
Proof.
  intros Hempty Hlen. unfold location_body.
  rewrite (slice_past_end 9 11) by done. by rewrite Hempty.
Qed.

Lemma float_of_cases (epochData : value) (key : StateVector -> string) :
  (exists x, float_of py_float epochData key = Ok x)
  \/ float_of py_float epochData key = Raise TypeError
  \/ float_of py_float epochData key = Raise ValueError.
Proof.
  unfold float_of.
  destruct epochData; simpl; try (by right; left).
  destruct (py_float _); simpl; [left; eauto|by right; right].
Qed.

Lemma math_sqrt_cases (x : float) :
  math_sqrt x = Ok (fsqrt x) \/ math_sqrt x = Raise ValueError.
Proof. unfold math_sqrt. destruct (negative x); [by right|by left]. Qed.

(** One step of lines 275-292: the call at the head raises one of the four
    exceptions, or the body goes on. *)
Ltac stop_case :=
  lazymatch goal with
  | |- stops_before_geocoding (Ok _ ≫= _) = true => rewrite bind_Ok
  | |- stops_before_geocoding ((?o ?! _) ≫= _) = true =>
      destruct o; [cbn [or_raise]; rewrite bind_Ok|reflexivity]
  | |- stops_before_geocoding (float_of ?f ?v ?k ≫= _) = true =>
      destruct (float_of_cases v k) as [[? ->]|[->| ->]];
      [rewrite bind_Ok|reflexivity..]
  | |- stops_before_geocoding (math_sqrt ?x ≫= _) = true =>
      destruct (math_sqrt_cases x) as [->| ->]; [rewrite bind_Ok|reflexivity]
  end.

(** X13. Lines 275-298 never return and never reach the geocoder: every run
    stops on [ValueError], [TypeError] or [OverflowError] of the parsing
    and the arithmetic, or on the [NameError] of the unbound [geocode] on
    line 292, before the missing ['LONGITUDE'] entry can be read. *)
Theorem location_body_stops_before_geocoding (epoch : string) (epochData : value) :
  stops_before_geocoding
    (location_body py_int py_float float_pow2 atan2 degrees reverse epoch epochData)
  = true.
Proof.
  unfold location_body. repeat stop_case. by rewrite load_geocode.
Qed.
End LocationAnswers.

(** ** The time-of-day term of the longitude *)

Lemma all_corrections_in_range :
  forallb (fun h => forallb (correction_in_range h) (seq 0 60)) (seq 0 24) = true.
Proof. vm_compute. reflexivity. Qed.

(** X15. For every hour from 0 to 23 and minute from 0 to 59 the term that
    line 283 subtracts, [((hrs-12)+(mins/60))*(360/24)] in binary64, is at
    least -180 and below 180. *)
Theorem time_correction_bounds (hrs mins : Z) :
  0 <= hrs <= 23 -> 0 <= mins <= 59 ->
  fleb (of_int (-180)) (time_correction hrs mins) = true
  /\ fltb (time_correction hrs mins) (of_int 180) = true.
Proof.
  intros Hh Hm. apply andb_prop.
  pose proof all_corrections_in_range as Hall.
  rewrite forallb_forall in Hall.
  specialize (Hall (Z.to_nat hrs)). rewrite forallb_forall in Hall.
  specialize (Hall ltac:(apply in_seq; lia) (Z.to_nat mins) ltac:(apply in_seq; lia)).
  unfold correction_in_range in Hall. by rewrite !Z2Nat.id in Hall by lia.
Qed.

Lemma fsub_zero_r (x : float) : fsub x (S754_zero false) = x.
Proof. by destruct x as [[]|[]| |]. Qed.

(** X16. At 12:00 the time-of-day term is zero: the raw longitude of line
    283 is [degrees(atan2(y, x)) + 32], whatever [atan2] and [degrees]
    compute. *)
Theorem raw_longitude_at_noon (atan2 : float -> float -> float)
    (degrees : float -> float) (x y : float) :
  raw_longitude atan2 degrees x y 12 0 = fadd (degrees (atan2 y x)) (of_int 32).
Proof.
  unfold raw_longitude.
  change (fmul _ _) with (S754_zero false). by rewrite fsub_zero_r.
Qed.

(** ** The scan of lines 323-333 *)

Lemma abs_lt_irrefl (a : float) : abs_lt a a = false.
Proof.
  destruct a as [s|s| |s m e]; try done.
  unfold abs_lt, fltb, SFltb. simpl.
  by rewrite Z.compare_refl, Pos.compare_cont_refl.
Qed.

Lemma abs_lt_trans (a b c : float) :
  abs_lt a b = true -> abs_lt b c = true -> abs_lt a c = true.
Proof.
  unfold abs_lt, fltb, SFltb.
  destruct a as [sa|sa| |sa ma ea], b as [sb|sb| |sb mb eb],
    c as [sc|sc| |sc mc ec]; simpl; try done.
  change (Pos.compare_cont Eq ma mb) with (ma ?= mb)%positive.
  change (Pos.compare_cont Eq mb mc) with (mb ?= mc)%positive.
  change (Pos.compare_cont Eq ma mc) with (ma ?= mc)%positive.
  destruct (Z.compare_spec ea eb), (Z.compare_spec eb ec), (Z.compare_spec ea ec);
    try done; try lia.
  destruct (Pos.compare_spec ma mb), (Pos.compare_spec mb mc),
    (Pos.compare_spec ma mc); try done; lia.
Qed.

Section ScanFacts.
Variable time_time : nat -> float.
Variable epoch_seconds : string -> option float.

(** X17. When the scan ends, the difference it retains is the starting one
    or one of smaller absolute value, and no record of the list has a
    difference [time.time() - timeEpoch] of smaller absolute value than the
    retained one. *)
Theorem now_loop_keeps_minimum (svs : list StateVector) :
  forall (calls : nat) (minDifference : float) (minStateVector : value)
    (found : float) (kept : value),
  now_loop time_time epoch_seconds svs calls minDifference minStateVector
  = Ok (found, kept) ->
  (found = minDifference \/ abs_lt found minDifference = true)
  /\ forall i d t,
       svs !! i = Some d ->
       epoch_seconds (drop_last 1 (EPOCH d)) = Some t ->
       abs_lt (fsub (time_time (calls + i)%nat) t) found = false.
Proof.
  induction svs as [|d0 svs IH]; intros calls md msv found kept; simpl.
  - intros [= <- <-]. split; [by left|]. by intros i d t.
  - destruct (epoch_seconds (drop_last 1 (EPOCH d0))) as [t0|] eqn:Ht0; simpl; [|done].
    fold (abs_lt (fsub (time_time calls) t0) md).
    destruct (abs_lt (fsub (time_time calls) t0) md) eqn:Hlt; intros Hloop;
      destruct (IH _ _ _ _ _ Hloop) as [Hfound Hall]; split.
    + right. destruct Hfound as [->|Hfound]; [done|]. by eapply abs_lt_trans.
    + intros [|i] d t; simpl.
      * intros [= <-] Ht. rewrite Ht in Ht0. injection Ht0 as ->.
        rewrite Nat.add_0_r. destruct Hfound as [->|Hfound].
        -- apply abs_lt_irrefl.
        -- destruct (abs_lt (fsub (time_time calls) t0) found) eqn:Hcontra; [|done].
           by rewrite <- (abs_lt_irrefl found), (abs_lt_trans _ _ _ Hfound Hcontra).
      * intros Hi Ht. rewrite Nat.add_succ_r. by apply (Hall i d t).
    + done.
    + intros [|i] d t; simpl.
      * intros [= <-] Ht. rewrite Ht in Ht0. injection Ht0 as ->.
        rewrite Nat.add_0_r. destruct Hfound as [->|Hfound]; [done|].
        destruct (abs_lt (fsub (time_time calls) t0) found) eqn:Hcontra; [|done].
        by rewrite <- Hlt, (abs_lt_trans _ _ _ Hcontra Hfound).
      * intros Hi Ht. rewrite Nat.add_succ_r. by apply (Hall i d t).
Qed.

(** X18. The scan keeps a difference together with the epoch it belongs to:
    either nothing improved on the start, or the retained difference is
    the signed [time.time() - timeEpoch] of a record of the list and the
    retained value is the epoch string of that record, on which the
    subscript ['EPOCH'] of line 335 raises [TypeError]. *)
Theorem now_loop_keeps_pair (svs : list StateVector) :
  forall (calls : nat) (minDifference : float) (minStateVector : value)
    (found : float) (kept : value),
  now_loop time_time epoch_seconds svs calls minDifference minStateVector
  = Ok (found, kept) ->
  (found = minDifference /\ kept = minStateVector)
  \/ exists i d t,
       svs !! i = Some d
       /\ epoch_seconds (drop_last 1 (EPOCH d)) = Some t
       /\ found = fsub (time_time (calls + i)%nat) t
       /\ kept = VStr (EPOCH d)
       /\ epoch_of kept = Raise TypeError.
Proof.
  induction svs as [|d0 svs IH]; intros calls md msv found kept; simpl.
  - intros [= <- <-]. by left.
  - destruct (epoch_seconds (drop_last 1 (EPOCH d0))) as [t0|] eqn:Ht0; simpl; [|done].
    destruct (fltb _ _); intros Hloop;
      destruct (IH _ _ _ _ _ Hloop) as [[-> ->]|(i & d & t & Hi & Ht & -> & -> & He)].
    + right. exists O, d0, t0. by rewrite Nat.add_0_r.
    + right. exists (S i), d, t. by rewrite Nat.add_succ_r.
    + by left.
    + right. exists (S i), d, t. by rewrite Nat.add_succ_r.
Qed.

(** X19. One record whose epoch, cut of its last character, is refused by
    [strptime] is enough for the scan to raise [ValueError], wherever the
    record stands in the list. *)
Theorem now_loop_refused_epoch (svs : list StateVector) (d : StateVector) :
  forall (calls : nat) (minDifference : float) (minStateVector : value),
  d ∈ svs ->
  epoch_seconds (drop_last 1 (EPOCH d)) = None ->
  now_loop time_time epoch_seconds svs calls minDifference minStateVector
  = Raise ValueError.
Proof.
  intros calls md msv Hin Hnone. revert calls md msv.
  induction Hin as [d svs|d d0 svs Hin IH]; intros calls md msv; simpl.
  - by rewrite Hnone.
  - destruct (epoch_seconds (drop_last 1 (EPOCH d0))); simpl; [|done].
    destruct (fltb _ _); by apply IH.
Qed.
End ScanFacts.

(** ** The further properties at concrete inputs *)

Lemma sample_epochs_distinct : NoDup (map EPOCH (stateVector sample_oem)).
Proof. apply (bool_decide_unpack _). by vm_compute. Qed.

Lemma epoch3_outside_two_first : epoch3 ∉ [epoch1; epoch2].
Proof. apply (bool_decide_unpack _). by vm_compute. Qed.

Lemma Offset_not_in_sample : "Offset" ∉ map EPOCH (stateVector sample_oem).
Proof. apply (bool_decide_unpack _). by vm_compute. Qed.

Lemma epoch1_in_broken : epoch1 ∈ [epoch1].
Proof. apply (bool_decide_unpack _). by vm_compute. Qed.

Lemma first_vector_in_sample :
  sample_vector epoch1 "3" "4" "0" ∈ stateVector sample_oem.
Proof. apply elem_of_cons. by left. Qed.

Lemma epochs_any_query_is_window_witness :
  epochs int_literal negative_limit_request sample = Ok (VList [epoch2; epoch3])
  /\ exists i n : nat,
       [epoch2; epoch3] = map EPOCH (take n (drop i (stateVector sample_oem))).
Proof.
  split; [reflexivity|].
  exact (epochs_any_query_is_window int_literal negative_limit_request sample_oem
           [epoch2; epoch3] eq_refl).
Defined.

Lemma epochs_no_repetition_witness :
  NoDup (map EPOCH (stateVector sample_oem))
  /\ epochs int_literal window_request sample = Ok (VList [epoch2; epoch3])
  /\ NoDup [epoch2; epoch3].
Proof.
  split; [exact sample_epochs_distinct|]. split; [reflexivity|].
  exact (epochs_no_repetition int_literal window_request sample_oem [epoch2; epoch3]
           sample_epochs_distinct eq_refl).
Defined.

Lemma epochs_pages_compose_witness :
  int_literal "" = None
  /\ arg_value int_literal (arg_offset first_page_request) 0 = Some 0
  /\ arg_value int_literal (arg_limit first_page_request) 3 = Some 1
  /\ arg_value int_literal (arg_offset window_request) 0 = Some (0 + 1)
  /\ arg_value int_literal (arg_limit window_request) 3 = Some 2
  /\ arg_value int_literal (arg_limit whole_request) 3 = Some (1 + 2)
  /\ exists l1 l2,
       epochs int_literal first_page_request sample = Ok (VList l1)
       /\ epochs int_literal window_request sample = Ok (VList l2)
       /\ epochs int_literal whole_request sample = Ok (VList (l1 ++ l2)).
Proof.
  do 6 (split; [reflexivity|]).
  exact (epochs_pages_compose int_literal eq_refl first_page_request window_request
           whole_request sample_oem 0 1 2
           ltac:(discriminate) ltac:(discriminate) ltac:(discriminate)
           eq_refl eq_refl eq_refl eq_refl eq_refl eq_refl).
Defined.

Lemma epochs_empty_limit_unbounded_witness :
  int_literal "" = None
  /\ arg_limit empty_limit_request = Some ""
  /\ arg_value int_literal (arg_offset empty_limit_request) 0 = Some 1
  /\ epochs int_literal empty_limit_request sample = Ok (VList [epoch2; epoch3]).
Proof.
  do 3 (split; [reflexivity|]).
  exact (epochs_empty_limit_unbounded int_literal eq_refl empty_limit_request
           sample_oem 1 eq_refl eq_refl).
Defined.

Lemma epochs_empty_offset_witness :
  int_literal "" = None
  /\ arg_offset empty_offset_request = Some ""
  /\ arg_value int_literal (arg_limit empty_offset_request) 3 = Some 3
  /\ 3 <> 0 /\ stateVector sample_oem <> []
  /\ epochs int_literal empty_offset_request sample = Raise TypeError.
Proof.
  do 3 (split; [reflexivity|]). do 2 (split; [discriminate|]).
  exact (proj1 (epochs_empty_offset int_literal eq_refl empty_offset_request
                  sample_oem 3 eq_refl eq_refl)
           ltac:(discriminate) ltac:(discriminate)).
Defined.

Lemma state_vector_returns_own_record_witness :
  NoDup (map EPOCH (stateVector sample_oem))
  /\ stateVector sample_oem !! 1%nat = Some (sample_vector epoch2 "-5" "1" "6")
  /\ state_vector sample epoch2 = Ok (VStateVector (sample_vector epoch2 "-5" "1" "6")).
Proof.
  split; [exact sample_epochs_distinct|]. split; [reflexivity|].
  exact (state_vector_returns_own_record sample_oem 1
           (sample_vector epoch2 "-5" "1" "6") sample_epochs_distinct eq_refl).
Defined.

(** [epoch3] is in the store and outside the first two records. *)
Lemma speed_outside_listing_witness :
  epochs int_literal two_first_request sample = Ok (VList [epoch1; epoch2])
  /\ (epoch3 ∉ [epoch1; epoch2])
  /\ speed int_literal float_literal ieee_pow2 two_first_request sample epoch3
     = Ok (VStr invalid_epoch).
Proof.
  split; [reflexivity|]. split; [exact epoch3_outside_two_first|].
  exact (speed_outside_listing int_literal float_literal ieee_pow2 two_first_request
           sample_oem [epoch1; epoch2] epoch3 eq_refl epoch3_outside_two_first).
Defined.

Lemma speed_refused_velocity_text_witness :
  epochs int_literal no_args (Document broken_oem) = Ok (VList [epoch1])
  /\ (epoch1 ∈ [epoch1])
  /\ state_vector (Document broken_oem) epoch1
     = Ok (VStateVector (sample_vector epoch1 "n/a" "4" "0"))
  /\ float_literal "n/a" = None
  /\ speed int_literal float_literal ieee_pow2 no_args (Document broken_oem) epoch1
     = Raise ValueError.
Proof.
  split; [reflexivity|]. split; [exact epoch1_in_broken|]. do 2 (split; [reflexivity|]).
  exact (speed_refused_velocity_text int_literal float_literal ieee_pow2 no_args
           broken_oem [epoch1] epoch1 (sample_vector epoch1 "n/a" "4" "0")
           eq_refl epoch1_in_broken eq_refl (or_introl eq_refl)).
Defined.

Lemma speed_answers_witness :
  speed int_literal float_literal ieee_pow2 no_args sample epoch1
  = Ok (VSpeed (of_int 5) "km/s")
  /\ ((sample = EmptyList /\ VSpeed (of_int 5) "km/s" = VList [])
      \/ VSpeed (of_int 5) "km/s" = VStr invalid_epoch
      \/ exists v, VSpeed (of_int 5) "km/s" = VSpeed v "km/s" /\ negative v = false).
Proof.
  split; [reflexivity|].
  exact (speed_answers int_literal float_literal ieee_pow2 no_args sample epoch1
           (VSpeed (of_int 5) "km/s") eq_refl).
Defined.

(** ["Offset"] is part of the error message and no epoch of the store. *)
Lemma speed_under_refused_offset_witness :
  refused int_literal (arg_offset refused_request)
  /\ is_substring epoch1 offset_error = false
  /\ is_substring "Offset" offset_error = true
  /\ ("Offset" ∉ map EPOCH (stateVector sample_oem))
  /\ speed int_literal float_literal ieee_pow2 refused_request sample epoch1
     = Ok (VStr invalid_epoch)
  /\ speed int_literal float_literal ieee_pow2 refused_request sample "Offset"
     = Raise TypeError.
Proof.
  split; [exact refused_offset|]. do 2 (split; [reflexivity|]).
  split; [exact Offset_not_in_sample|]. split.
  - exact (proj1 (speed_under_refused_offset int_literal float_literal ieee_pow2
                    refused_request sample_oem epoch1 refused_offset) eq_refl).
  - exact (proj2 (speed_under_refused_offset int_literal float_literal ieee_pow2
                    refused_request sample_oem "Offset" refused_offset)
             eq_refl Offset_not_in_sample).
Defined.

Lemma location_outside_listing_witness :
  epochs int_literal two_first_request sample = Ok (VList [epoch1; epoch2])
  /\ (epoch3 ∉ [epoch1; epoch2])
  /\ location int_literal float_literal ieee_pow2 atan2_unreached ieee_degrees
       no_answer two_first_request sample epoch3
     = Ok VNone.
Proof.
  split; [reflexivity|]. split; [exact epoch3_outside_two_first|].
  exact (location_outside_listing int_literal float_literal ieee_pow2 atan2_unreached
           ieee_degrees no_answer two_first_request sample_oem [epoch1; epoch2]
           epoch3 eq_refl epoch3_outside_two_first).
Defined.

(** A date without its time of day. *)
Lemma location_body_short_epoch_witness :
  int_literal "" = None
  /\ (String.length "2023-058" <= 9)%nat
  /\ location_body int_literal float_literal ieee_pow2 atan2_unreached ieee_degrees
       no_answer "2023-058" (VStateVector (sample_vector "2023-058" "3" "4" "0"))
     = Raise ValueError.
Proof.
  split; [reflexivity|]. split; [repeat constructor|].
  exact (location_body_short_epoch int_literal float_literal ieee_pow2 atan2_unreached
           ieee_degrees no_answer "2023-058"
           (VStateVector (sample_vector "2023-058" "3" "4" "0"))
           eq_refl ltac:(repeat constructor)).
Defined.

Lemma store_longitude_lookup_other_witness :
  "LATITUDE" <> "LONGITUDE"
  /\ store_longitude (<["LATITUDE" := LFloat (of_int 10)]> ∅) (of_int 190) !! "LATITUDE"
     = Some (LFloat (of_int 10)).
Proof.
  split; [discriminate|].
  exact (store_longitude_lookup_other (<["LATITUDE" := LFloat (of_int 10)]> ∅)
           (of_int 190) "LATITUDE" ltac:(discriminate)).
Defined.

Lemma time_correction_bounds_witness :
  0 <= 23 <= 23 /\ 0 <= 59 <= 59
  /\ fleb (of_int (-180)) (time_correction 23 59) = true
  /\ fltb (time_correction 23 59) (of_int 180) = true.
Proof.
  assert (0 <= 23 <= 23) as Hh by (split; discriminate).
  assert (0 <= 59 <= 59) as Hm by (split; discriminate).
  split; [exact Hh|]. split; [exact Hm|].
  exact (time_correction_bounds 23 59 Hh Hm).
Defined.

(** Differences +50 s, -5 s and +200 s, the scan started on the first. *)
Lemma near_scan :
  now_loop clock_at_noon_ten utc_epoch_seconds near_vectors 1 (of_int 50)
    (VStateVector (sample_vector near1 "3" "4" "0"))
  = Ok (of_int (-5), VStr near2).
Proof. reflexivity. Qed.

Lemma now_loop_keeps_minimum_witness :
  now_loop clock_at_noon_ten utc_epoch_seconds near_vectors 1 (of_int 50)
    (VStateVector (sample_vector near1 "3" "4" "0"))
  = Ok (of_int (-5), VStr near2)
  /\ (of_int (-5) = of_int 50 \/ abs_lt (of_int (-5)) (of_int 50) = true)
  /\ forall i d t,
       near_vectors !! i = Some d ->
       utc_epoch_seconds (drop_last 1 (EPOCH d)) = Some t ->
       abs_lt (fsub (clock_at_noon_ten (1 + i)%nat) t) (of_int (-5)) = false.
Proof.
  split; [exact near_scan|].
  exact (now_loop_keeps_minimum clock_at_noon_ten utc_epoch_seconds near_vectors 1
           (of_int 50) (VStateVector (sample_vector near1 "3" "4" "0"))
           (of_int (-5)) (VStr near2) near_scan).
Defined.

Lemma now_loop_keeps_pair_witness :
  now_loop clock_at_noon_ten utc_epoch_seconds near_vectors 1 (of_int 50)
    (VStateVector (sample_vector near1 "3" "4" "0"))
  = Ok (of_int (-5), VStr near2)
  /\ ((of_int (-5) = of_int 50
       /\ VStr near2 = VStateVector (sample_vector near1 "3" "4" "0"))
      \/ exists i d t,
           near_vectors !! i = Some d
           /\ utc_epoch_seconds (drop_last 1 (EPOCH d)) = Some t
           /\ of_int (-5) = fsub (clock_at_noon_ten (1 + i)%nat) t
           /\ VStr near2 = VStr (EPOCH d)
           /\ epoch_of (VStr near2) = Raise TypeError).
Proof.
  split; [exact near_scan|].
  exact (now_loop_keeps_pair clock_at_noon_ten utc_epoch_seconds near_vectors 1
           (of_int 50) (VStateVector (sample_vector near1 "3" "4" "0"))
           (of_int (-5)) (VStr near2) near_scan).
Defined.

(** The epochs of the feed carry fractional seconds. *)
Lemma now_loop_refused_epoch_witness :
  (sample_vector epoch1 "3" "4" "0" ∈ stateVector sample_oem)
  /\ utc_epoch_seconds (drop_last 1 epoch1) = None
  /\ now_loop clock_at_noon_ten utc_epoch_seconds (stateVector sample_oem) 1
       (of_int 50) (VStateVector (sample_vector epoch1 "3" "4" "0"))
     = Raise ValueError.
Proof.
  split; [exact first_vector_in_sample|]. split; [reflexivity|].
  exact (now_loop_refused_epoch clock_at_noon_ten utc_epoch_seconds
           (stateVector sample_oem) (sample_vector epoch1 "3" "4" "0") 1 (of_int 50)
           (VStateVector (sample_vector epoch1 "3" "4" "0"))
           first_vector_in_sample eq_refl).
Defined.
